(** * Insight routes of the Cognitiva API: a shallow embedding

    The development follows [src/routes/insight.ts]: the [authenticateToken]
    middleware, the listing route [GET /aluno/:alunoId], the retry wrapper
    [retryGenerateInsight] and the generating route [POST /aluno/:alunoId].

    Every asynchronous step of the source is a state transformer over a
    [World]; a [throw] is the [Throw] result.  The collaborators the file
    imports (jsonwebtoken, the Prisma client, the Gemini client, the process
    environment) are the fields of an [Env], so that a run can be evaluated
    on concrete collaborators. *)

From Stdlib Require Import ZArith List String Ascii Bool Lia.
From Stdlib Require Import Sorting.Permutation Sorting.Sorted.
Import ListNotations.
Local Open Scope string_scope.
Local Open Scope Z_scope.
Local Open Scope list_scope.

(** ** JavaScript values *)

(** The primitive values a database column or a JSON field can hold. *)
Inductive scalar : Type :=
| SNull
| SNum (n : Z)
| SStr (s : string).

(** A value read through [any]: a property may also be missing. *)
Inductive jsval : Type :=
| JUndefined
| JDef (v : scalar).

Coercion JDef : scalar >-> jsval.

Definition scalar_eqb (a b : scalar) : bool :=
  match a, b with
  | SNull, SNull => true
  | SNum n, SNum m => Z.eqb n m
  | SStr s, SStr t => String.eqb s t
  | _, _ => false
  end.

(** [a === b] on primitives. *)
Definition strict_eq (a b : jsval) : bool :=
  match a, b with
  | JUndefined, JUndefined => true
  | JDef x, JDef y => scalar_eqb x y
  | _, _ => false
  end.

(** [a !== b]. *)
Definition strict_neq (a b : jsval) : bool := negb (strict_eq a b).

(** Truthiness of a primitive: [undefined], [null], [0] and the empty string
    are falsy. *)
Definition truthy (a : jsval) : bool :=
  match a with
  | JUndefined => false
  | JDef SNull => false
  | JDef (SNum n) => negb (Z.eqb n 0)
  | JDef (SStr s) => negb (String.eqb s "")
  end.

(** [a || b]. *)
Definition js_or (a b : jsval) : jsval := if truthy a then a else b.

(** [s.includes(sub)]. *)
Fixpoint includes (sub s : string) : bool :=
  if String.prefix sub s then true
  else match s with
       | EmptyString => false
       | String _ s' => includes sub s'
       end.

(** [s.split(c)] for a one-character separator. *)
Fixpoint split (c : ascii) (s : string) : list string :=
  match s with
  | EmptyString => [EmptyString]
  | String a s' =>
      if Ascii.eqb a c then EmptyString :: split c s'
      else match split c s' with
           | [] => [String a EmptyString]
           | h :: t => String a h :: t
           end
  end.

(** Structured JSON data, for the rows the routes only pass along. *)
#[local] Unset Elimination Schemes.
Inductive json : Type :=
| JsonScalar (v : scalar)
| JsonArray (items : list json)
| JsonObject (fields : list (string * json)).
#[local] Set Elimination Schemes.

(** ** Results and thrown errors *)

Inductive Result (E A : Type) : Type :=
| Return (a : A)
| Throw (e : E).

Arguments Return {E A} a.
Arguments Throw {E A} e.

(** A thrown [Error] object, as far as the routes look at it:
    [error.status], [error.cause?.status] ([None] when there is no cause) and
    [error.message]. *)
Record JsError : Type := mkError {
  err_status : jsval;
  err_cause : option jsval;
  err_message : string
}.

(** [new Error(message)]. *)
Definition new_Error (message : string) : JsError :=
  mkError JUndefined None message.

(** [error.cause?.status]. *)
Definition cause_status (error : JsError) : jsval :=
  match err_cause error with
  | None => JUndefined
  | Some s => s
  end.

(** ** Storage rows *)

(** Modelled from the spec: the Prisma schema is not part of the sources.
    A target record has an id, a name, identifiers, demographic attributes,
    an owning-organization id and related condition data; the related
    sub-records are period-scored results, activity evaluations and free-text
    observations.  A column read from storage is never [undefined], and
    [turma] is always there: the source reads [aluno.turma.Nome] unguarded. *)
Record Turma : Type := mkTurma {
  turma_Nome : scalar
}.

Record Observacao : Type := mkObservacao {
  obs_texto : scalar
}.

Record Aluno : Type := mkAluno {
  aluno_id : string;
  aluno_Nome : scalar;
  aluno_Matricula : scalar;
  aluno_Idade : scalar;
  aluno_escolaId : scalar;
  aluno_turma : Turma;
  aluno_condicao : json;
  aluno_notasBimestrais : list json;
  aluno_avaliacoes : list json;
  aluno_observacoes : list Observacao
}.

(** The object literal [jsonInput] of the generating route. *)
Record JsonInputAluno : Type := mkJsonInputAluno {
  ji_Nome : scalar;
  ji_Matricula : scalar;
  ji_Idade : scalar;
  ji_turma : scalar;
  ji_condicao : json
}.

Record JsonInput : Type := mkJsonInput {
  ji_aluno : JsonInputAluno;
  ji_notas : list json;
  ji_avaliacoes : list json;
  ji_observacoes : list scalar
}.

(** Modelled from the spec: the Prisma schema is not part of the sources.
    An insight record has an id, a target id, an owning-organization id, the
    generation-time input payload, the generated text and a creation
    timestamp; id and timestamp are given by storage. *)
Record Insight : Type := mkInsight {
  insight_id : nat;
  insight_alunoId : string;
  insight_jsonInput : JsonInput;
  insight_textoInsight : string;
  insight_escolaId : scalar;
  insight_dataGeracao : Z
}.

(** The [data] argument of [prisma.insight.create]. *)
Record InsightData : Type := mkInsightData {
  data_alunoId : string;
  data_jsonInput : JsonInput;
  data_textoInsight : string;
  data_escolaId : scalar
}.

(** The verified token payload: [id], [nome] and [acesso] are declared by the
    cast of the source; [escolaId] is read through [any] and may be absent. *)
Record User : Type := mkUser {
  user_id : string;
  user_nome : string;
  user_acesso : string;
  user_escolaId : jsval
}.

(** ** Responses *)

Inductive Body : Type :=
| ErrorBody (error : string)
| InsightsBody (insights : list Insight)
| CreatedBody (message : string) (insight : Insight).

Record Response : Type := mkResponse {
  status : Z;
  body : Body
}.

(** [res.status(code).json({ error })]. *)
Definition res_error (code : Z) (error : string) : Response :=
  mkResponse code (ErrorBody error).

(** [res.json(value)]: the status stays 200. *)
Definition res_json (value : Body) : Response := mkResponse 200 value.

(** ** The world a request runs in *)

(** What a run does to its collaborators, in the order it does it. *)
Inductive event : Type :=
| EvFindMany (alunoId : string)
| EvFindUnique (alunoId : string)
| EvGenerate (prompt : string)
| EvDelay (ms : Z)
| EvCreate (data : InsightData)
| EvDisconnect.

Record World : Type := mkWorld {
  alunos : list Aluno;
  insights : list Insight;
  gen_calls : nat;
  clock : Z;
  trace : list event
}.

Definition log (e : event) (w : World) : World :=
  mkWorld (alunos w) (insights w) (gen_calls w) (clock w) (trace w ++ [e]).

(** The collaborators of the module.  [generateContent n prompt] is what the
    generation service answers to its [n]-th call (counted from 0); a storage
    fault is the error the corresponding Prisma call rejects with. *)
Record Env : Type := mkEnv {
  GEMINI_API_KEY : option string;
  JWT_SECRET : option string;
  jwt_verify : string -> option string -> option User;
  promptBase : string;
  JSON_stringify : JsonInput -> string;
  generateContent : nat -> string -> Result JsError string;
  findMany_fault : option JsError;
  findUnique_fault : option JsError;
  create_fault : option JsError
}.

(** An asynchronous computation that may throw an [E]. *)
Definition Async (E A : Type) : Type := World -> Result E A * World.

Definition ret {E A : Type} (a : A) : Async E A := fun w => (Return a, w).

Definition bind {E A B : Type} (m : Async E A) (k : A -> Async E B) : Async E B :=
  fun w =>
    match m w with
    | (Return a, w') => k a w'
    | (Throw e, w') => (Throw e, w')
    end.

Notation "x <- m ;; k" := (bind m (fun x => k))
  (at level 61, m at next level, right associativity).

(** Rethrow with the thrown value seen through [f]. *)
Definition map_throw {E F A : Type} (f : E -> F) (m : Async E A) : Async F A :=
  fun w =>
    match m w with
    | (Return a, w') => (Return a, w')
    | (Throw e, w') => (Throw (f e), w')
    end.

(** ** [authenticateToken] *)

Definition space : ascii := Ascii.ascii_of_nat 32.

(** [authHeader && authHeader.split(' ')[1]], [None] when the result is
    falsy. *)
Definition bearer_token (authHeader : option string) : option string :=
  match authHeader with
  | None => None
  | Some h =>
      if String.eqb h "" then None
      else match nth_error (split space h) 1 with
           | None => None
           | Some token => if String.eqb token "" then None else Some token
           end
  end.

(** The middleware answers itself ([inl]) or calls [next] with the user
    attached to the request ([inr]). *)
Definition authenticateToken (env : Env) (authHeader : option string)
  : Response + User :=
  match bearer_token authHeader with
  | None => inl (res_error 401 "Token de autenticação não fornecido.")
  | Some token =>
      match jwt_verify env token (JWT_SECRET env) with
      | Some user => inr user
      | None => inl (res_error 403 "Token inválido.")
      end
  end.

(** ** [retryGenerateInsight] *)

(** [await delay(ms)]. *)
Definition delay (ms : Z) (w : World) : World :=
  log (EvDelay ms)
      (mkWorld (alunos w) (insights w) (gen_calls w) (clock w + ms) (trace w)).

(** [await model.generateContent(fullPrompt)] followed by
    [result.response.text()]. *)
Definition model_generateContent (env : Env) (fullPrompt : string)
  : Async JsError string :=
  fun w =>
    (generateContent env (gen_calls w) fullPrompt,
     log (EvGenerate fullPrompt)
         (mkWorld (alunos w) (insights w) (S (gen_calls w)) (clock w) (trace w))).

(** The three [throw] statements of the wrapper. *)
Inductive GenError : Type :=
| KeyMissing
| NonRecoverable (error : JsError)
| PersistentOverload.

Definition overload_message : string :=
  "Gemini API falhou após múltiplas tentativas (503 Sobrecarga persistente).".

(** The value each [throw] statement throws. *)
Definition thrown (g : GenError) : JsError :=
  match g with
  | KeyMissing => new_Error "GEMINI_API_KEY não está definida."
  | NonRecoverable error => error
  | PersistentOverload => new_Error overload_message
  end.

(** [(error as any).status || (error as any).cause?.status]. *)
Definition error_status (error : JsError) : jsval :=
  js_or (err_status error) (cause_status error).

(** The transient-overload signal: the extracted status is the number 503. *)
Definition is_overload (error : JsError) : bool :=
  strict_eq (error_status error) (SNum 503).

(** [Math.pow(2, attempt) * 1000]. *)
Definition delayTime (attempt : nat) : Z := 2 ^ Z.of_nat attempt * 1000.

(** The [for] loop: [remaining] is [maxRetries - attempt]. *)
Fixpoint retry_loop (env : Env) (fullPrompt : string) (remaining attempt : nat)
  : Async GenError string :=
  fun w =>
    match remaining with
    | O => (Throw PersistentOverload, w)
    | S remaining' =>
        match model_generateContent env fullPrompt w with
        | (Return text, w1) => (Return text, w1)
        | (Throw error, w1) =>
            if strict_neq (error_status error) (SNum 503)
            then (Throw (NonRecoverable error), w1)
            else retry_loop env fullPrompt remaining' (S attempt)
                            (delay (delayTime attempt) w1)
        end
    end.

(** [!GEMINI_API_KEY]. *)
Definition key_missing (env : Env) : bool :=
  match GEMINI_API_KEY env with
  | None => true
  | Some k => String.eqb k ""
  end.

Definition retryGenerateInsight (env : Env) (fullPrompt : string) (maxRetries : nat)
  : Async GenError string :=
  fun w =>
    if key_missing env then (Throw KeyMissing, w)
    else retry_loop env fullPrompt maxRetries 0 w.

(** The default value of the parameter [maxRetries]. *)
Definition default_maxRetries : nat := 3.

(** ** Storage calls *)

(** [orderBy: { dataGeracao: 'desc' }]. *)
Fixpoint insert_desc (i : Insight) (l : list Insight) : list Insight :=
  match l with
  | [] => [i]
  | j :: l' =>
      if Z.leb (insight_dataGeracao j) (insight_dataGeracao i)
      then i :: j :: l'
      else j :: insert_desc i l'
  end.

Definition sort_desc (l : list Insight) : list Insight :=
  fold_right insert_desc [] l.

(** [prisma.insight.findMany({ where: { alunoId }, orderBy: ... })]. *)
Definition prisma_insight_findMany (env : Env) (alunoId : string)
  : Async JsError (list Insight) :=
  fun w =>
    let w1 := log (EvFindMany alunoId) w in
    match findMany_fault env with
    | Some err => (Throw err, w1)
    | None =>
        (Return (sort_desc
                   (filter (fun i => String.eqb (insight_alunoId i) alunoId)
                           (insights w))), w1)
    end.

(** [prisma.aluno.findUnique({ where: { id }, include: ... })]. *)
Definition prisma_aluno_findUnique (env : Env) (id : string)
  : Async JsError (option Aluno) :=
  fun w =>
    let w1 := log (EvFindUnique id) w in
    match findUnique_fault env with
    | Some err => (Throw err, w1)
    | None => (Return (find (fun a => String.eqb (aluno_id a) id) (alunos w)), w1)
    end.

(** An id no stored insight has. *)
Definition fresh_id (l : list Insight) : nat :=
  S (list_max (map insight_id l)).

(** [prisma.insight.create({ data })]: the new row gets its id and its
    timestamp from storage. *)
Definition prisma_insight_create (env : Env) (data : InsightData)
  : Async JsError Insight :=
  fun w =>
    let w1 := log (EvCreate data) w in
    match create_fault env with
    | Some err => (Throw err, w1)
    | None =>
        let novo := mkInsight (fresh_id (insights w)) (data_alunoId data)
                              (data_jsonInput data) (data_textoInsight data)
                              (data_escolaId data) (clock w) in
        (Return novo,
         mkWorld (alunos w1) (insights w1 ++ [novo]) (gen_calls w1) (clock w1)
                 (trace w1))
    end.

(** [await prisma.$disconnect()]. *)
Definition prisma_disconnect (w : World) : World := log EvDisconnect w.

(** [try { body } catch (err) { handler } finally { finalizer }] where the
    handler does not throw. *)
Definition try_catch_finally {A : Type} (body : Async JsError A)
    (handler : JsError -> A) (finalizer : World -> World) (w : World)
  : A * World :=
  match body w with
  | (Return a, w') => (a, finalizer w')
  | (Throw err, w') => (handler err, finalizer w')
  end.

(** ** [GET /aluno/:alunoId] *)

Definition get_try (env : Env) (alunoId : string) : Async JsError Response :=
  insights <- prisma_insight_findMany env alunoId ;;
  ret (res_json (InsightsBody insights)).

Definition get_catch (err : JsError) : Response :=
  res_error 500 "Erro interno ao buscar insights.".

(** The route handler, run once the middleware has called [next]. *)
Definition get_handler (env : Env) (alunoId : string) (w : World)
  : Response * World :=
  if String.eqb alunoId ""
  then (res_error 400 "ID do aluno é obrigatório.", w)
  else try_catch_finally (get_try env alunoId) get_catch prisma_disconnect w.

(** The whole route: middleware, then handler. *)
Definition GET_aluno (env : Env) (authHeader : option string) (alunoId : string)
    (w : World) : Response * World :=
  match authenticateToken env authHeader with
  | inl response => (response, w)
  | inr _ => get_handler env alunoId w
  end.

(** ** [POST /aluno/:alunoId] *)

(** The object literal [jsonInput]. *)
Definition build_jsonInput (aluno : Aluno) : JsonInput :=
  mkJsonInput
    (mkJsonInputAluno (aluno_Nome aluno) (aluno_Matricula aluno)
                      (aluno_Idade aluno) (turma_Nome (aluno_turma aluno))
                      (aluno_condicao aluno))
    (aluno_notasBimestrais aluno)
    (aluno_avaliacoes aluno)
    (map obs_texto (aluno_observacoes aluno)).

Definition newline : string := String (Ascii.ascii_of_nat 10) EmptyString.

(** The template literal [fullPrompt]. *)
Definition build_fullPrompt (env : Env) (jsonInput : JsonInput) : string :=
  (promptBase env ++ newline ++ newline ++ "JSON do Aluno:" ++ newline
     ++ JSON_stringify env jsonInput)%string.

(** [user.escolaId !== aluno.escolaId && user.acesso !== 'Administrador']. *)
Definition access_denied (user : User) (aluno : Aluno) : bool :=
  strict_neq (user_escolaId user) (aluno_escolaId aluno)
  && negb (String.eqb (user_acesso user) "Administrador").

(** From [jsonInput] to the end of the [try] block. *)
Definition generate_and_store (env : Env) (aluno : Aluno) : Async JsError Response :=
  let jsonInput := build_jsonInput aluno in
  let fullPrompt := build_fullPrompt env jsonInput in
  responseText <-
    map_throw thrown (retryGenerateInsight env fullPrompt default_maxRetries) ;;
  novoInsight <-
    prisma_insight_create env
      (mkInsightData (aluno_id aluno) jsonInput responseText (aluno_escolaId aluno)) ;;
  ret (res_json (CreatedBody "Insight gerado com sucesso!" novoInsight)).

Definition post_try (env : Env) (user : User) (alunoId : string)
  : Async JsError Response :=
  found <- prisma_aluno_findUnique env alunoId ;;
  match found with
  | None => ret (res_error 404 "Aluno não encontrado.")
  | Some aluno =>
      if access_denied user aluno
      then ret (res_error 403 "Acesso negado: Aluno não pertence à sua escola.")
      else generate_and_store env aluno
  end.

Definition post_catch (err : JsError) : Response :=
  let isRetryFailure := includes "Sobrecarga persistente" (err_message err) in
  res_error (if isRetryFailure then 503 else 500)
            (if isRetryFailure
             then "Serviço de IA Indisponível (Sobrecarga). Tente novamente."
             else "Erro interno ao gerar insight.").

(** The route handler, run once the middleware has called [next]. *)
Definition post_handler (env : Env) (user : User) (alunoId : string) (w : World)
  : Response * World :=
  if String.eqb alunoId ""
  then (res_error 400 "ID do aluno é obrigatório.", w)
  else try_catch_finally (post_try env user alunoId) post_catch prisma_disconnect w.

(** The whole route: middleware, then handler. *)
Definition POST_aluno (env : Env) (authHeader : option string) (alunoId : string)
    (w : World) : Response * World :=
  match authenticateToken env authHeader with
  | inl response => (response, w)
  | inr user => post_handler env user alunoId w
  end.

(** ** Runs, traces and what the properties speak of *)

(** The calls to the generation service among some events. *)
Definition generate_calls (evs : list event) : nat :=
  List.length (filter (fun e => match e with EvGenerate _ => true | _ => false end) evs).

(** The waits among some events, in order. *)
Fixpoint delays (evs : list event) : list Z :=
  match evs with
  | [] => []
  | EvDelay ms :: evs' => ms :: delays evs'
  | _ :: evs' => delays evs'
  end.

(** The rows written among some events. *)
Definition creations (evs : list event) : nat :=
  List.length (filter (fun e => match e with EvCreate _ => true | _ => false end) evs).

(** The releases of the storage connection among some events. *)
Definition disconnects (evs : list event) : nat :=
  List.length (filter (fun e => match e with EvDisconnect => true | _ => false end) evs).

(** What [k] consecutive overloaded attempts leave in the trace, the first of
    them being attempt number [attempt]: a call, then its backoff. *)
Definition backoff_events (fullPrompt : string) (attempt k : nat) : list event :=
  flat_map (fun a => [EvGenerate fullPrompt; EvDelay (2 ^ Z.of_nat a * 1000)])
           (seq attempt k).

(** The time these attempts wait. *)
Definition backoff_total (attempt k : nat) : Z :=
  fold_right Z.add 0 (map delayTime (seq attempt k)).

(** The [n]-th call to the generation service fails with the
    transient-overload signal. *)
Definition overloaded_at (env : Env) (fullPrompt : string) (n : nat) : Prop :=
  exists error,
    generateContent env n fullPrompt = Throw error /\ is_overload error = true.

(** The world [k] consecutive overloaded attempts lead to. *)
Definition after_overloads (fullPrompt : string) (attempt k : nat) (w : World)
  : World :=
  mkWorld (alunos w) (insights w) (gen_calls w + k)
          (clock w + backoff_total attempt k)
          (trace w ++ backoff_events fullPrompt attempt k).

(** What the handler makes of the outcome of its [try] block. *)
Definition settle (outcome : Result JsError Response * World) : Response * World :=
  match outcome with
  | (Return response, w') => (response, prisma_disconnect w')
  | (Throw err, w') => (post_catch err, prisma_disconnect w')
  end.

(** An insight belongs to the school of its target. *)
Definition owned_by_target (targets : list Aluno) (i : Insight) : Prop :=
  exists aluno,
    find (fun a => String.eqb (aluno_id a) (insight_alunoId i)) targets = Some aluno
    /\ insight_escolaId i = aluno_escolaId aluno.

(** ** Concrete collaborators, for the runs the theorems are evaluated on *)

Module Scenario.

Definition professor : User := mkUser "u1" "Ana" "Professor" (SStr "escola-A").
Definition administrador : User :=
  mkUser "u2" "Rui" "Administrador" (SStr "escola-A").
Definition administrator : User :=
  mkUser "u3" "Eva" "Administrator" (SStr "escola-A").
Definition sem_escola : User := mkUser "u4" "Lia" "Professor" JUndefined.

Definition verify (token : string) (secret : option string) : option User :=
  if String.eqb token "tok-professor" then Some professor
  else if String.eqb token "tok-administrador" then Some administrador
  else if String.eqb token "tok-administrator" then Some administrator
  else if String.eqb token "tok-sem-escola" then Some sem_escola
  else None.

Definition aluno_A : Aluno :=
  mkAluno "a1" (SStr "Bia") (SStr "M-1") (SNum 12) (SStr "escola-A")
          (mkTurma (SStr "6A")) (JsonScalar SNull) [] []
          [mkObservacao (SStr "atenta")].
Definition aluno_B : Aluno :=
  mkAluno "b1" (SStr "Caio") (SStr "M-2") (SNum 13) (SStr "escola-B")
          (mkTurma (SStr "7B")) (JsonScalar SNull) [] [] [].

Definition w0 : World := mkWorld [aluno_A; aluno_B] [] 0 0 [].

Definition overloaded : JsError :=
  mkError (SNum 503) None "The model is overloaded.".
Definition overloaded_cause : JsError :=
  mkError JUndefined (Some (JDef (SNum 503))) "fetch failed".
Definition bad_request : JsError :=
  mkError (SNum 400) None "Bad request.".
Definition misleading : JsError :=
  mkError (SNum 500) None "Upstream: Sobrecarga persistente".

(** A service that answers with [err] to its first [k] calls and with
    ["texto"] afterwards. *)
Definition fails_then_succeeds (err : JsError) (k : nat)
  : nat -> string -> Result JsError string :=
  fun n _ => if Nat.ltb n k then Throw err else Return "texto".

(** A service that answers every call with [err]. *)
Definition always_fails (err : JsError)
  : nat -> string -> Result JsError string :=
  fun _ _ => Throw err.

Definition env_with (service : nat -> string -> Result JsError string) : Env :=
  mkEnv (Some "key") (Some "secret") verify "Prompt" (fun _ => "{}")
        service None None None.

Definition bearer (token : string) : option string :=
  Some ("Bearer " ++ token)%string.

End Scenario.

(** ** Further vocabulary: headers, listings and more collaborators *)

(** The character [c] occurs in [s]. *)
Fixpoint has_char (c : ascii) (s : string) : bool :=
  match s with
  | EmptyString => false
  | String a s' => Ascii.eqb a c || has_char c s'
  end.

(** [j] comes no later than [i] in a listing: [i] is at least as recent. *)
Definition not_older (i j : Insight) : Prop :=
  insight_dataGeracao j <= insight_dataGeracao i.

(** The stored insights of one target. *)
Definition insights_of (alunoId : string) (w : World) : list Insight :=
  filter (fun i => String.eqb (insight_alunoId i) alunoId) (insights w).

(** The prompts of the calls to the generation service among some events. *)
Fixpoint prompts (evs : list event) : list string :=
  match evs with
  | [] => []
  | EvGenerate p :: evs' => p :: prompts evs'
  | _ :: evs' => prompts evs'
  end.

Module Cases.

Definition payload : JsonInput := build_jsonInput Scenario.aluno_A.

Definition older : Insight :=
  mkInsight 1 "a1" payload "primeiro" (SStr "escola-A") 10.
Definition newer : Insight :=
  mkInsight 2 "a1" payload "segundo" (SStr "escola-A") 20.
Definition other : Insight :=
  mkInsight 3 "b1" (build_jsonInput Scenario.aluno_B) "outro" (SStr "escola-B") 15.

(** A store that already holds insights, the older one first. *)
Definition w1 : World :=
  mkWorld [Scenario.aluno_A; Scenario.aluno_B] [older; other; newer] 0 100 [].

Definition succeeds : nat -> string -> Result JsError string :=
  Scenario.fails_then_succeeds Scenario.overloaded 0.

Definition storage_down : JsError := mkError JUndefined None "Connection refused".

(** Collaborators without an API key. *)
Definition env_without_key : Env :=
  mkEnv None (Some "secret") Scenario.verify "Prompt" (fun _ => "{}")
        succeeds None None None.

(** Collaborators whose storage rejects [create]. *)
Definition env_create_fails (service : nat -> string -> Result JsError string) : Env :=
  mkEnv (Some "key") (Some "secret") Scenario.verify "Prompt" (fun _ => "{}")
        service None None (Some storage_down).

(** A service that is overloaded once, then fails for good. *)
Definition overloaded_then_rejected : nat -> string -> Result JsError string :=
  fun n _ => if Nat.ltb n 1 then Throw Scenario.overloaded
             else Throw Scenario.bad_request.

End Cases.

(** * Properties *)

(** ** Worlds and traces *)

Lemma world_ext (w1 w2 : World) :
  alunos w1 = alunos w2 -> insights w1 = insights w2 ->
  gen_calls w1 = gen_calls w2 -> clock w1 = clock w2 -> trace w1 = trace w2 ->
  w1 = w2.
Proof.
  destruct w1, w2; simpl; intros; subst; reflexivity.
Qed.

Lemma backoff_events_snoc (p : string) (attempt k : nat) :
  backoff_events p attempt (S k) =
  backoff_events p attempt k
    ++ [EvGenerate p; EvDelay (2 ^ Z.of_nat (attempt + k) * 1000)].
Proof.
  unfold backoff_events. rewrite seq_S, flat_map_app. reflexivity.
Qed.

Lemma generate_calls_app (l1 l2 : list event) :
  generate_calls (l1 ++ l2) = (generate_calls l1 + generate_calls l2)%nat.
Proof.
  unfold generate_calls. rewrite filter_app, List.length_app. reflexivity.
Qed.

Lemma delays_app (l1 l2 : list event) :
  delays (l1 ++ l2) = delays l1 ++ delays l2.
Proof.
  induction l1 as [|e l1 IH]; simpl; [reflexivity|].
  destruct e; simpl; rewrite IH; reflexivity.
Qed.

Lemma generate_calls_backoff (p : string) (k attempt : nat) :
  generate_calls (backoff_events p attempt k) = k.
Proof.
  revert attempt. induction k as [|k IH]; intros attempt; [reflexivity|].
  change (backoff_events p attempt (S k))
    with ([EvGenerate p; EvDelay (2 ^ Z.of_nat attempt * 1000)]
            ++ backoff_events p (S attempt) k).
  rewrite generate_calls_app, IH. reflexivity.
Qed.

Lemma delays_backoff (p : string) (k attempt : nat) :
  delays (backoff_events p attempt k) = map delayTime (seq attempt k).
Proof.
  revert attempt. induction k as [|k IH]; intros attempt; [reflexivity|].
  change (backoff_events p attempt (S k))
    with ([EvGenerate p; EvDelay (2 ^ Z.of_nat attempt * 1000)]
            ++ backoff_events p (S attempt) k).
  rewrite delays_app, IH. reflexivity.
Qed.

Lemma backoff_total_closed (k attempt : nat) :
  backoff_total attempt k =
  (2 ^ Z.of_nat (attempt + k) - 2 ^ Z.of_nat attempt) * 1000.
Proof.
  revert attempt. induction k as [|k IH]; intros attempt.
  - unfold backoff_total. simpl. rewrite Nat.add_0_r. lia.
  - change (backoff_total attempt (S k))
      with (delayTime attempt + backoff_total (S attempt) k).
    rewrite IH. unfold delayTime.
    replace (S attempt + k)%nat with (attempt + S k)%nat by lia.
    replace (Z.of_nat (S attempt)) with (Z.of_nat attempt + 1) by lia.
    rewrite Z.pow_add_r by lia. lia.
Qed.

(** ** The retry loop *)

Lemma retry_loop_skip (env : Env) (p : string) :
  forall (k remaining attempt : nat) (w : World),
    (forall i, (i < k)%nat -> overloaded_at env p (gen_calls w + i)) ->
    retry_loop env p (k + remaining) attempt w =
    retry_loop env p remaining (attempt + k) (after_overloads p attempt k w).
Proof.
  induction k as [|k IH]; intros remaining attempt w Hov.
  - rewrite Nat.add_0_r. f_equal.
    apply world_ext; simpl; try reflexivity.
    + lia.
    + unfold backoff_total; simpl; lia.
    + unfold backoff_events; simpl; rewrite app_nil_r; reflexivity.
  - destruct (Hov 0%nat ltac:(lia)) as (e & He & Hsig).
    rewrite Nat.add_0_r in He.
    change (S k + remaining)%nat with (S (k + remaining)).
    cbn [retry_loop]. unfold model_generateContent. rewrite He.
    unfold is_overload in Hsig. unfold strict_neq. rewrite Hsig. cbn [negb].
    rewrite IH.
    + replace (S attempt + k)%nat with (attempt + S k)%nat by lia.
      f_equal. apply world_ext; simpl; try reflexivity.
      * lia.
      * change (backoff_total attempt (S k))
          with (delayTime attempt + backoff_total (S attempt) k). lia.
      * change (backoff_events p attempt (S k))
          with ([EvGenerate p; EvDelay (2 ^ Z.of_nat attempt * 1000)]
                  ++ backoff_events p (S attempt) k).
        unfold delayTime. rewrite <- !app_assoc. reflexivity.
    + intros i Hi. simpl.
      replace (S (gen_calls w + i)) with (gen_calls w + S i)%nat by lia.
      apply Hov. lia.
Qed.

(** Whatever the service answers, the loop only appends to the trace, and
    touches neither the stored rows nor anything but calls and waits. *)
Lemma retry_loop_frame (env : Env) (p : string) :
  forall (remaining attempt : nat) (w : World),
    let w' := snd (retry_loop env p remaining attempt w) in
    alunos w' = alunos w /\ insights w' = insights w /\
    exists evs, trace w' = trace w ++ evs /\ creations evs = 0%nat
                /\ disconnects evs = 0%nat.
Proof.
  induction remaining as [|r IH]; intros attempt w; cbn zeta.
  - simpl. repeat split. exists []. rewrite app_nil_r. repeat split.
  - cbn [retry_loop]. unfold model_generateContent.
    destruct (generateContent env (gen_calls w) p) as [text|e].
    + simpl. repeat split. exists [EvGenerate p]. repeat split.
    + destruct (strict_neq (error_status e) (SNum 503)).
      * simpl. repeat split. exists [EvGenerate p]. repeat split.
      * match goal with
        | |- context [retry_loop env p r (S attempt) ?w1] =>
            destruct (IH (S attempt) w1) as (Ha & Hi & evs & Ht & Hc & Hd)
        end.
        rewrite Ha, Hi, Ht. simpl. repeat split.
        exists (EvGenerate p :: EvDelay (delayTime attempt) :: evs).
        rewrite <- !app_assoc. repeat split; assumption.
Qed.

Lemma retry_loop_exhausted (env : Env) (p : string) (maxRetries : nat) (w : World) :
  (forall i, (i < maxRetries)%nat -> overloaded_at env p (gen_calls w + i)) ->
  retry_loop env p maxRetries 0 w =
  (Throw PersistentOverload, after_overloads p 0 maxRetries w).
Proof.
  intros Hov.
  replace maxRetries with (maxRetries + 0)%nat at 1 by lia.
  rewrite retry_loop_skip by assumption. reflexivity.
Qed.

Lemma retry_loop_succeeds (env : Env) (p : string) (maxRetries k : nat)
    (text : string) (w : World) :
  (k < maxRetries)%nat ->
  (forall i, (i < k)%nat -> overloaded_at env p (gen_calls w + i)) ->
  generateContent env (gen_calls w + k) p = Return text ->
  retry_loop env p maxRetries 0 w =
  (Return text,
   mkWorld (alunos w) (insights w) (S (gen_calls w + k))
           (clock w + backoff_total 0 k)
           ((trace w ++ backoff_events p 0 k) ++ [EvGenerate p])).
Proof.
  intros Hk Hov Hret.
  replace maxRetries with (k + S (maxRetries - S k))%nat by lia.
  rewrite retry_loop_skip by assumption.
  cbn [retry_loop]. unfold model_generateContent.
  cbn [after_overloads gen_calls]. rewrite Hret. reflexivity.
Qed.

Lemma retry_loop_fails (env : Env) (p : string) (maxRetries k : nat)
    (error : JsError) (w : World) :
  (k < maxRetries)%nat ->
  (forall i, (i < k)%nat -> overloaded_at env p (gen_calls w + i)) ->
  generateContent env (gen_calls w + k) p = Throw error ->
  is_overload error = false ->
  retry_loop env p maxRetries 0 w =
  (Throw (NonRecoverable error),
   mkWorld (alunos w) (insights w) (S (gen_calls w + k))
           (clock w + backoff_total 0 k)
           ((trace w ++ backoff_events p 0 k) ++ [EvGenerate p])).
Proof.
  intros Hk Hov Hthrow Hsig.
  replace maxRetries with (k + S (maxRetries - S k))%nat by lia.
  rewrite retry_loop_skip by assumption.
  cbn [retry_loop]. unfold model_generateContent.
  cbn [after_overloads gen_calls]. rewrite Hthrow.
  unfold is_overload in Hsig. unfold strict_neq. rewrite Hsig. reflexivity.
Qed.

(** The wrapper as a whole keeps the frame of its loop. *)
Lemma retryGenerateInsight_frame (env : Env) (p : string) (maxRetries : nat)
    (w : World) :
  let w' := snd (retryGenerateInsight env p maxRetries w) in
  alunos w' = alunos w /\ insights w' = insights w /\
  exists evs, trace w' = trace w ++ evs /\ creations evs = 0%nat
              /\ disconnects evs = 0%nat.
Proof.
  unfold retryGenerateInsight. destruct (key_missing env).
  - simpl. repeat split. exists []. rewrite app_nil_r. repeat split.
  - apply retry_loop_frame.
Qed.

(** ** The generating route, stage by stage *)

Lemma strict_eq_true_iff (a b : jsval) : strict_eq a b = true <-> a = b.
Proof.
  destruct a as [|x], b as [|y]; simpl; try (split; congruence).
  destruct x, y; simpl; try (split; congruence).
  - rewrite Z.eqb_eq. split; congruence.
  - rewrite String.eqb_eq. split; congruence.
Qed.

Lemma strict_neq_true_iff (a b : jsval) : strict_neq a b = true <-> a <> b.
Proof.
  unfold strict_neq. rewrite negb_true_iff, <- not_true_iff_false.
  rewrite strict_eq_true_iff. reflexivity.
Qed.

Lemma post_handler_settles (env : Env) (user : User) (alunoId : string) (w : World) :
  alunoId <> "" ->
  post_handler env user alunoId w = settle (post_try env user alunoId w).
Proof.
  intros Hid. unfold post_handler.
  apply String.eqb_neq in Hid. rewrite Hid.
  unfold try_catch_finally, settle.
  destruct (post_try env user alunoId w) as [[r|e] w']; reflexivity.
Qed.

Section ExistingTarget.

Variables (env : Env) (authHeader : option string) (alunoId : string)
          (user : User) (aluno : Aluno) (w : World).

Hypothesis token_valid : authenticateToken env authHeader = inr user.
Hypothesis id_given : alunoId <> "".
Hypothesis storage_reads : findUnique_fault env = None.
Hypothesis target_exists :
  find (fun a => String.eqb (aluno_id a) alunoId) (alunos w) = Some aluno.

(** A denied caller is answered 403 right after the read. *)
Lemma POST_denied :
  access_denied user aluno = true ->
  POST_aluno env authHeader alunoId w =
  (res_error 403 "Acesso negado: Aluno não pertence à sua escola.",
   prisma_disconnect (log (EvFindUnique alunoId) w)).
Proof.
  intros Hden. unfold POST_aluno. rewrite token_valid.
  rewrite post_handler_settles by assumption.
  unfold post_try, bind, prisma_aluno_findUnique.
  rewrite storage_reads, target_exists, Hden. reflexivity.
Qed.

(** A caller that is let through goes on to generation. *)
Lemma POST_allowed :
  access_denied user aluno = false ->
  POST_aluno env authHeader alunoId w =
  settle (generate_and_store env aluno (log (EvFindUnique alunoId) w)).
Proof.
  intros Hden. unfold POST_aluno. rewrite token_valid.
  rewrite post_handler_settles by assumption.
  unfold post_try, bind, prisma_aluno_findUnique.
  rewrite storage_reads, target_exists, Hden. reflexivity.
Qed.

End ExistingTarget.

Lemma generate_and_store_throws (env : Env) (aluno : Aluno) (w1 w2 : World)
    (g : GenError) :
  retryGenerateInsight env (build_fullPrompt env (build_jsonInput aluno))
                       default_maxRetries w1 = (Throw g, w2) ->
  generate_and_store env aluno w1 = (Throw (thrown g), w2).
Proof.
  intros Hretry. unfold generate_and_store, bind, map_throw.
  rewrite Hretry. reflexivity.
Qed.

Lemma includes_overload_message :
  includes "Sobrecarga persistente" overload_message = true.
Proof. reflexivity. Qed.

(** The signal is read from [error.status] first and from the cause only
    when that is falsy; it has to be the number 503. *)
Example overload_signal_readings :
  is_overload Scenario.overloaded = true /\
  is_overload Scenario.overloaded_cause = true /\
  is_overload (mkError (SNum 500) (Some (JDef (SNum 503))) "") = false /\
  is_overload (mkError (SStr "503") None "") = false /\
  is_overload (thrown PersistentOverload) = false.
Proof. repeat split; reflexivity. Qed.

(** The token is the second piece of the header, cut at single spaces. *)
Example bearer_token_readings :
  bearer_token (Some "Bearer abc") = Some "abc" /\
  bearer_token (Some "Bearer abc def") = Some "abc" /\
  bearer_token (Some "Bearer") = None /\
  bearer_token (Some "Bearer  abc") = None /\
  bearer_token (Some "") = None /\
  bearer_token None = None.
Proof. repeat split; reflexivity. Qed.

(** ** Retry and backoff *)

(** C1.  When the generation service answers the first [k] calls of a run of
    the retry wrapper with the transient-overload signal (status 503) and the
    next one with a text, and [k < maxRetries], the wrapper returns that
    text, has called the service exactly [k + 1] times, and between two
    consecutive calls has waited [1000 * 2 ^ attempt] milliseconds: one
    second after attempt 0, two after attempt 1, four after attempt 2. *)
Theorem retry_returns_text_after_k_overloads
    (env : Env) (fullPrompt : string) (maxRetries k : nat) (text : string)
    (w : World) :
  key_missing env = false ->
  (k < maxRetries)%nat ->
  (forall i, (i < k)%nat -> overloaded_at env fullPrompt (gen_calls w + i)) ->
  generateContent env (gen_calls w + k) fullPrompt = Return text ->
  exists (w' : World) (evs : list event),
    retryGenerateInsight env fullPrompt maxRetries w = (Return text, w') /\
    trace w' = trace w ++ evs /\
    evs = flat_map (fun attempt =>
                      [EvGenerate fullPrompt; EvDelay (2 ^ Z.of_nat attempt * 1000)])
                   (seq 0 k) ++ [EvGenerate fullPrompt] /\
    generate_calls evs = (k + 1)%nat /\
    gen_calls w' = (gen_calls w + (k + 1))%nat /\
    delays evs = map (fun attempt => 2 ^ Z.of_nat attempt * 1000) (seq 0 k) /\
    clock w' = clock w + (2 ^ Z.of_nat k - 1) * 1000.
Proof.
  intros Hkey Hk Hov Hret.
  eexists. exists (backoff_events fullPrompt 0 k ++ [EvGenerate fullPrompt]).
  unfold retryGenerateInsight. rewrite Hkey.
  rewrite (retry_loop_succeeds env fullPrompt maxRetries k text w Hk Hov Hret).
  split; [reflexivity|]. cbn [trace gen_calls clock].
  split; [rewrite app_assoc; reflexivity|].
  split; [reflexivity|].
  split; [rewrite generate_calls_app, generate_calls_backoff; reflexivity|].
  split; [lia|].
  split.
  - rewrite delays_app, delays_backoff. simpl. rewrite app_nil_r. reflexivity.
  - rewrite backoff_total_closed. simpl. lia.
Qed.

(** C9.  In a run of the retry wrapper, an attempt that fails with the
    transient-overload signal is followed by its wait of
    [1000 * 2 ^ attempt] milliseconds, the last attempt included: when all
    [maxRetries] attempts fail so, the trace ends with the last call and a
    wait of [1000 * 2 ^ (maxRetries - 1)] milliseconds, and only then the
    wrapper throws its overload error. *)
Theorem backoff_awaited_after_every_overload
    (env : Env) (fullPrompt : string) (maxRetries attempt : nat) (w : World) :
  key_missing env = false ->
  (attempt < maxRetries)%nat ->
  (forall i, (i <= attempt)%nat -> overloaded_at env fullPrompt (gen_calls w + i)) ->
  exists rest : list event,
    trace (snd (retryGenerateInsight env fullPrompt maxRetries w)) =
      trace w ++ backoff_events fullPrompt 0 attempt
        ++ [EvGenerate fullPrompt; EvDelay (2 ^ Z.of_nat attempt * 1000)] ++ rest /\
    (S attempt = maxRetries ->
       rest = [] /\
       fst (retryGenerateInsight env fullPrompt maxRetries w)
         = Throw PersistentOverload /\
       delays (backoff_events fullPrompt 0 attempt
                 ++ [EvGenerate fullPrompt; EvDelay (2 ^ Z.of_nat attempt * 1000)])
         = map (fun a => 2 ^ Z.of_nat a * 1000) (seq 0 maxRetries) /\
       clock (snd (retryGenerateInsight env fullPrompt maxRetries w))
         = clock w + (2 ^ Z.of_nat maxRetries - 1) * 1000).
Proof.
  intros Hkey Hlt Hov.
  unfold retryGenerateInsight. rewrite Hkey.
  assert (Hsplit : exists r, maxRetries = (S attempt + r)%nat)
    by (exists (maxRetries - S attempt)%nat; lia).
  destruct Hsplit as [r ->].
  rewrite retry_loop_skip by (intros i Hi; apply Hov; lia).
  destruct r as [|r].
  - exists []. cbn [retry_loop fst snd after_overloads trace clock].
    rewrite backoff_events_snoc. split; [reflexivity|].
    intros _. split; [reflexivity|]. split; [reflexivity|].
    rewrite <- backoff_events_snoc, delays_backoff, backoff_total_closed.
    rewrite !Nat.add_0_r. split; [reflexivity|].
    change (0 + S attempt)%nat with (S attempt). change (2 ^ Z.of_nat 0) with 1. lia.
  - destruct (retry_loop_frame env fullPrompt (S r) (0 + S attempt)
                (after_overloads fullPrompt 0 (S attempt) w))
      as (_ & _ & evs & Ht & _).
    exists evs. split.
    + rewrite Ht. cbn [after_overloads trace].
      rewrite backoff_events_snoc, <- !app_assoc. reflexivity.
    + intros Hmax. lia.
Qed.

Lemma retry_returns_text_after_k_overloads_witness :
  exists w' : World,
    retryGenerateInsight
      (Scenario.env_with (Scenario.fails_then_succeeds Scenario.overloaded 2))
      "p" 3 Scenario.w0 = (Return "texto", w') /\
    gen_calls w' = 3%nat /\
    delays (trace w') = [1000; 2000].
Proof.
  destruct (retry_returns_text_after_k_overloads
              (Scenario.env_with (Scenario.fails_then_succeeds Scenario.overloaded 2))
              "p" 3 2 "texto" Scenario.w0)
    as (w' & evs & Hrun & Htrace & Hevs & _ & Hcalls & Hdelays & _).
  - reflexivity.
  - lia.
  - intros i Hi. destruct i as [|[|i]];
      [exists Scenario.overloaded; split; reflexivity ..| lia].
  - reflexivity.
  - exists w'. split; [exact Hrun|]. split; [exact Hcalls|].
    rewrite Htrace. exact Hdelays.
Defined.

Lemma backoff_awaited_after_every_overload_witness :
  exists rest : list event,
    trace (snd (retryGenerateInsight
                  (Scenario.env_with (Scenario.fails_then_succeeds Scenario.overloaded 3))
                  "p" 3 Scenario.w0)) =
      [EvGenerate "p"; EvDelay 1000; EvGenerate "p"; EvDelay 2000]
        ++ [EvGenerate "p"; EvDelay 4000] ++ rest /\
    rest = [].
Proof.
  destruct (backoff_awaited_after_every_overload
              (Scenario.env_with (Scenario.fails_then_succeeds Scenario.overloaded 3))
              "p" 3 2 Scenario.w0)
    as (rest & Htrace & Hlast).
  - reflexivity.
  - lia.
  - intros i Hi. destruct i as [|[|[|i]]];
      [exists Scenario.overloaded; split; reflexivity ..| lia].
  - exists rest. split; [exact Htrace|]. apply Hlast. reflexivity.
Defined.

(** C2.  When the generation service answers every attempt of a run with
    the transient-overload signal, the retry wrapper calls it exactly
    [maxRetries] times and then throws its own overload error: a new error
    made on the spot, with no status of its own, that is none of the errors
    the service answered with, and that the route answers 503, where it
    answers 500 to a rethrown error without the words of the overload
    message.  The generating route runs the wrapper with the default of 3
    attempts and answers 503 after exactly 3 calls, whatever the service
    would have answered to a fourth. *)
Theorem persistent_overload_answers_503
    (env : Env) (authHeader : option string) (alunoId : string) (user : User)
    (aluno : Aluno) (w : World) :
  key_missing env = false ->
  authenticateToken env authHeader = inr user ->
  alunoId <> "" ->
  findUnique_fault env = None ->
  find (fun a => String.eqb (aluno_id a) alunoId) (alunos w) = Some aluno ->
  access_denied user aluno = false ->
  (forall i, (i < default_maxRetries)%nat ->
     overloaded_at env (build_fullPrompt env (build_jsonInput aluno)) (gen_calls w + i)) ->
  (forall maxRetries w1,
      (forall i, (i < maxRetries)%nat ->
         overloaded_at env (build_fullPrompt env (build_jsonInput aluno))
                       (gen_calls w1 + i)) ->
      exists w2,
        retryGenerateInsight env (build_fullPrompt env (build_jsonInput aluno))
                             maxRetries w1 = (Throw PersistentOverload, w2) /\
        gen_calls w2 = (gen_calls w1 + maxRetries)%nat /\
        (exists evs, trace w2 = trace w1 ++ evs /\ generate_calls evs = maxRetries) /\
        (forall i error,
           (i < maxRetries)%nat ->
           generateContent env (gen_calls w1 + i)
                           (build_fullPrompt env (build_jsonInput aluno)) = Throw error ->
           thrown PersistentOverload <> error)) /\
  thrown PersistentOverload =
    mkError JUndefined None
      "Gemini API falhou após múltiplas tentativas (503 Sobrecarga persistente)." /\
  is_overload (thrown PersistentOverload) = false /\
  (forall error,
     PersistentOverload <> NonRecoverable error /\
     thrown (NonRecoverable error) = error) /\
  (forall error,
     includes "Sobrecarga persistente" (err_message error) = false ->
     status (post_catch (thrown (NonRecoverable error))) = 500) /\
  status (post_catch (thrown PersistentOverload)) = 503 /\
  default_maxRetries = 3%nat /\
  exists w',
    POST_aluno env authHeader alunoId w =
      (res_error 503 "Serviço de IA Indisponível (Sobrecarga). Tente novamente.", w') /\
    gen_calls w' = (gen_calls w + 3)%nat /\
    insights w' = insights w.
Proof.
  intros Hkey Htoken Hid Hread Hfind Hden Hov.
  assert (Hwrap : forall m w1,
             (forall i, (i < m)%nat ->
                overloaded_at env (build_fullPrompt env (build_jsonInput aluno))
                              (gen_calls w1 + i)) ->
             retryGenerateInsight env (build_fullPrompt env (build_jsonInput aluno))
                                  m w1 =
             (Throw PersistentOverload,
              after_overloads (build_fullPrompt env (build_jsonInput aluno)) 0 m w1)).
  { intros m w1 Hall. unfold retryGenerateInsight. rewrite Hkey.
    apply retry_loop_exhausted. exact Hall. }
  split; [|split; [|split; [|split; [|split; [|split; [|split]]]]]].
  - intros m w1 Hall. eexists. split; [apply Hwrap; exact Hall|].
    split; [reflexivity|]. split.
    + eexists. split; [reflexivity|]. apply generate_calls_backoff.
    + intros i error Hi Hcall Heq.
      destruct (Hall i Hi) as (e & He & Hsig).
      rewrite Hcall in He. injection He as <-.
      rewrite <- Heq in Hsig. discriminate.
  - reflexivity.
  - reflexivity.
  - intros error. split; [discriminate | reflexivity].
  - intros error Hmsg. unfold post_catch. cbn [thrown]. rewrite Hmsg. reflexivity.
  - reflexivity.
  - reflexivity.
  - rewrite (POST_allowed env authHeader alunoId user aluno w) by assumption.
    rewrite (generate_and_store_throws env aluno _ _ PersistentOverload
               (Hwrap default_maxRetries (log (EvFindUnique alunoId) w) Hov)).
    eexists. split; [reflexivity|]. split; reflexivity.
Qed.

Lemma persistent_overload_answers_503_witness :
  exists w',
    POST_aluno (Scenario.env_with (Scenario.fails_then_succeeds Scenario.overloaded 3))
               (Scenario.bearer "tok-professor") "a1" Scenario.w0
      = (res_error 503 "Serviço de IA Indisponível (Sobrecarga). Tente novamente.", w') /\
    gen_calls w' = 3%nat /\
    generateContent
      (Scenario.env_with (Scenario.fails_then_succeeds Scenario.overloaded 3)) 3
      (build_fullPrompt
         (Scenario.env_with (Scenario.fails_then_succeeds Scenario.overloaded 3))
         (build_jsonInput Scenario.aluno_A))
      = Return "texto".
Proof.
  destruct (persistent_overload_answers_503
              (Scenario.env_with (Scenario.fails_then_succeeds Scenario.overloaded 3))
              (Scenario.bearer "tok-professor") "a1" Scenario.professor
              Scenario.aluno_A Scenario.w0)
    as (_ & _ & _ & _ & _ & _ & _ & w' & Hrun & Hcalls & _).
  - reflexivity.
  - reflexivity.
  - discriminate.
  - reflexivity.
  - reflexivity.
  - reflexivity.
  - intros i Hi. unfold default_maxRetries in Hi.
    destruct i as [|[|[|i]]];
      [exists Scenario.overloaded; split; reflexivity ..| lia].
  - exists w'. split; [exact Hrun|]. split; [exact Hcalls | reflexivity].
Defined.

(** When the generation service answers the first call without the
    transient-overload signal, the retry wrapper calls it exactly once, waits
    for nothing and rethrows that error as it is, and the generating route
    answers with what its [catch] makes of that error; that is 500 when the
    message of the error does not contain the words by which the route
    recognises the wrapper's overload error. *)
Theorem non_transient_failure_is_not_retried
    (env : Env) (authHeader : option string) (alunoId : string) (user : User)
    (aluno : Aluno) (w : World) (error : JsError) :
  key_missing env = false ->
  authenticateToken env authHeader = inr user ->
  alunoId <> "" ->
  findUnique_fault env = None ->
  find (fun a => String.eqb (aluno_id a) alunoId) (alunos w) = Some aluno ->
  access_denied user aluno = false ->
  generateContent env (gen_calls w) (build_fullPrompt env (build_jsonInput aluno))
    = Throw error ->
  is_overload error = false ->
  (forall maxRetries w1,
      (0 < maxRetries)%nat -> gen_calls w1 = gen_calls w ->
      exists w2,
        retryGenerateInsight env (build_fullPrompt env (build_jsonInput aluno))
                             maxRetries w1 = (Throw (NonRecoverable error), w2) /\
        thrown (NonRecoverable error) = error /\
        trace w2 = trace w1 ++ [EvGenerate (build_fullPrompt env (build_jsonInput aluno))] /\
        gen_calls w2 = S (gen_calls w1) /\
        clock w2 = clock w1) /\
  (exists w',
      POST_aluno env authHeader alunoId w = (post_catch error, w') /\
      gen_calls w' = S (gen_calls w) /\
      insights w' = insights w) /\
  (includes "Sobrecarga persistente" (err_message error) = false ->
   post_catch error = res_error 500 "Erro interno ao gerar insight.").
Proof.
  intros Hkey Htoken Hid Hread Hfind Hden Hthrow Hsig.
  assert (Hwrap : forall m w1,
             (0 < m)%nat -> gen_calls w1 = gen_calls w ->
             retryGenerateInsight env (build_fullPrompt env (build_jsonInput aluno))
                                  m w1 =
             (Throw (NonRecoverable error),
              mkWorld (alunos w1) (insights w1) (S (gen_calls w1 + 0))
                      (clock w1 + backoff_total 0 0)
                      ((trace w1 ++ backoff_events
                                      (build_fullPrompt env (build_jsonInput aluno)) 0 0)
                         ++ [EvGenerate (build_fullPrompt env (build_jsonInput aluno))]))).
  { intros m w1 Hm Hcalls. unfold retryGenerateInsight. rewrite Hkey.
    apply retry_loop_fails; try assumption.
    - intros i Hi. lia.
    - rewrite Nat.add_0_r, Hcalls. exact Hthrow. }
  split; [|split].
  - intros m w1 Hm Hcalls. eexists. split; [apply Hwrap; assumption|].
    cbn [trace gen_calls clock thrown]. split; [reflexivity|].
    split; [rewrite app_nil_r; reflexivity|].
    split; [rewrite Nat.add_0_r; reflexivity|].
    unfold backoff_total; simpl; lia.
  - rewrite (POST_allowed env authHeader alunoId user aluno w) by assumption.
    assert (Hdefault : (0 < default_maxRetries)%nat)
      by (unfold default_maxRetries; lia).
    rewrite (generate_and_store_throws env aluno _ _ (NonRecoverable error)
               (Hwrap default_maxRetries (log (EvFindUnique alunoId) w)
                      Hdefault eq_refl)).
    eexists. split; [reflexivity|]. cbn. rewrite Nat.add_0_r.
    split; reflexivity.
  - intros Hmsg. unfold post_catch. rewrite Hmsg. reflexivity.
Qed.

Lemma non_transient_failure_is_not_retried_witness :
  POST_aluno (Scenario.env_with (Scenario.always_fails Scenario.bad_request))
             (Scenario.bearer "tok-professor") "a1" Scenario.w0
  = (res_error 500 "Erro interno ao gerar insight.",
     snd (POST_aluno (Scenario.env_with (Scenario.always_fails Scenario.bad_request))
                     (Scenario.bearer "tok-professor") "a1" Scenario.w0)).
Proof.
  destruct (non_transient_failure_is_not_retried
              (Scenario.env_with (Scenario.always_fails Scenario.bad_request))
              (Scenario.bearer "tok-professor") "a1" Scenario.professor
              Scenario.aluno_A Scenario.w0 Scenario.bad_request)
    as (_ & (w' & Hrun & _) & Hcode).
  - reflexivity.
  - reflexivity.
  - discriminate.
  - reflexivity.
  - reflexivity.
  - reflexivity.
  - reflexivity.
  - reflexivity.
  - rewrite Hrun, (Hcode eq_refl). reflexivity.
Defined.

(** C3 (the code departs from it).  A failure of the generation service
    without the transient-overload signal is to be answered 500 after one
    call and no retry.  Here the service answers its one call with an error
    of status 500 whose message contains the words of the wrapper's overload
    message: the wrapper calls once, waits for nothing and rethrows the error
    as it is, but the route, which tells the wrapper's overload error by
    those words alone, takes the rethrown error for it and answers 503, with
    the body it gives when the retries are used up. *)
Lemma misleading_message_is_answered_503 :
  let env := Scenario.env_with (Scenario.always_fails Scenario.misleading) in
  let run := POST_aluno env (Scenario.bearer "tok-professor") "a1" Scenario.w0 in
  authenticateToken env (Scenario.bearer "tok-professor") = inr Scenario.professor /\
  find (fun a => String.eqb (aluno_id a) "a1") (alunos Scenario.w0)
    = Some Scenario.aluno_A /\
  access_denied Scenario.professor Scenario.aluno_A = false /\
  generateContent env 0 (build_fullPrompt env (build_jsonInput Scenario.aluno_A))
    = Throw Scenario.misleading /\
  is_overload Scenario.misleading = false /\
  gen_calls (snd run) = 1%nat /\
  status (fst run) = 503 /\
  status (fst run) <> 500 /\
  fst (retryGenerateInsight env
         (build_fullPrompt env (build_jsonInput Scenario.aluno_A))
         default_maxRetries (log (EvFindUnique "a1") Scenario.w0))
    = Throw (NonRecoverable Scenario.misleading) /\
  delays (trace (snd run)) = [] /\
  fst run
    = res_error 503 "Serviço de IA Indisponível (Sobrecarga). Tente novamente." /\
  fst run
    = fst (POST_aluno (Scenario.env_with (Scenario.always_fails Scenario.overloaded))
                      (Scenario.bearer "tok-professor") "a1" Scenario.w0).
Proof.
  cbv zeta. repeat split; try reflexivity; vm_compute; discriminate.
Qed.

(** ** Authorization *)

Lemma access_denied_true_iff (user : User) (aluno : Aluno) :
  access_denied user aluno = true <->
  user_escolaId user <> JDef (aluno_escolaId aluno)
  /\ user_acesso user <> "Administrador".
Proof.
  unfold access_denied.
  rewrite andb_true_iff, strict_neq_true_iff, negb_true_iff, String.eqb_neq.
  reflexivity.
Qed.

(** The answers the route can give once the caller is let through. *)
Lemma settle_generate_and_store_status (env : Env) (aluno : Aluno) (w1 : World) :
  let response := fst (settle (generate_and_store env aluno w1)) in
  status response = 200 \/ status response = 500 \/ status response = 503.
Proof.
  unfold generate_and_store, bind, map_throw.
  destruct (retryGenerateInsight env _ default_maxRetries w1) as [[text|g] w2].
  - unfold prisma_insight_create. destruct (create_fault env) as [err|].
    + unfold settle, post_catch; cbn.
      destruct (includes _ (err_message err)); cbn; auto.
    + cbn. auto.
  - unfold settle, post_catch; cbn.
    destruct (includes _ (err_message (thrown g))); cbn; auto.
Qed.

(** C4, as the code has it.  A caller with a valid token whose school id is
    not the school id of the existing target, and whose access level is not
    the tag ["Administrador"], is answered 403; no insight is stored and the
    generation service is not called: the run reads the target and releases
    the storage connection, nothing else. *)
Theorem other_school_is_forbidden
    (env : Env) (authHeader : option string) (alunoId : string) (user : User)
    (aluno : Aluno) (w : World) :
  authenticateToken env authHeader = inr user ->
  alunoId <> "" ->
  findUnique_fault env = None ->
  find (fun a => String.eqb (aluno_id a) alunoId) (alunos w) = Some aluno ->
  user_escolaId user <> JDef (aluno_escolaId aluno) ->
  user_acesso user <> "Administrador" ->
  exists w',
    POST_aluno env authHeader alunoId w =
      (res_error 403 "Acesso negado: Aluno não pertence à sua escola.", w') /\
    insights w' = insights w /\
    gen_calls w' = gen_calls w /\
    trace w' = trace w ++ [EvFindUnique alunoId; EvDisconnect].
Proof.
  intros Htoken Hid Hread Hfind Hschool Hacesso.
  rewrite (POST_denied env authHeader alunoId user aluno w)
    by (try assumption; apply access_denied_true_iff; split; assumption).
  eexists. split; [reflexivity|]. cbn. rewrite <- app_assoc. repeat split.
Qed.

Lemma other_school_is_forbidden_witness :
  status (fst (POST_aluno
                 (Scenario.env_with (Scenario.fails_then_succeeds Scenario.overloaded 0))
                 (Scenario.bearer "tok-professor") "b1" Scenario.w0)) = 403.
Proof.
  destruct (other_school_is_forbidden
              (Scenario.env_with (Scenario.fails_then_succeeds Scenario.overloaded 0))
              (Scenario.bearer "tok-professor") "b1" Scenario.professor
              Scenario.aluno_B Scenario.w0)
    as (w' & Hrun & _).
  - reflexivity.
  - discriminate.
  - reflexivity.
  - reflexivity.
  - discriminate.
  - discriminate.
  - rewrite Hrun. reflexivity.
Defined.

(** A caller of another school whose access level is ["Administrador"], a
    string that is not ["Administrator"], is not answered 403: the service is
    called and an insight is stored. *)
Lemma administrador_of_other_school_is_served :
  let env := Scenario.env_with (Scenario.fails_then_succeeds Scenario.overloaded 0) in
  let run := POST_aluno env (Scenario.bearer "tok-administrador") "b1" Scenario.w0 in
  authenticateToken env (Scenario.bearer "tok-administrador")
    = inr Scenario.administrador /\
  find (fun a => String.eqb (aluno_id a) "b1") (alunos Scenario.w0)
    = Some Scenario.aluno_B /\
  user_escolaId Scenario.administrador <> JDef (aluno_escolaId Scenario.aluno_B) /\
  user_acesso Scenario.administrador <> "Administrator" /\
  status (fst run) = 200 /\
  status (fst run) <> 403 /\
  List.length (insights (snd run)) = 1%nat /\
  gen_calls (snd run) = 1%nat.
Proof.
  cbv zeta. repeat split; try reflexivity; vm_compute; discriminate.
Qed.

(** C5, as the code has it.  A caller whose access level is the tag
    ["Administrador"] passes the authorization step whatever the school of
    the target: the check does not deny, and the generating route goes on to
    generation instead of answering 403. *)
Theorem administrador_is_allowed
    (env : Env) (authHeader : option string) (alunoId : string) (user : User)
    (aluno : Aluno) (w : World) :
  authenticateToken env authHeader = inr user ->
  alunoId <> "" ->
  findUnique_fault env = None ->
  find (fun a => String.eqb (aluno_id a) alunoId) (alunos w) = Some aluno ->
  user_acesso user = "Administrador" ->
  access_denied user aluno = false /\
  POST_aluno env authHeader alunoId w =
    settle (generate_and_store env aluno (log (EvFindUnique alunoId) w)) /\
  status (fst (POST_aluno env authHeader alunoId w)) <> 403.
Proof.
  intros Htoken Hid Hread Hfind Hacesso.
  assert (Hden : access_denied user aluno = false).
  { unfold access_denied. rewrite Hacesso. cbn. apply andb_false_r. }
  split; [exact Hden|].
  rewrite (POST_allowed env authHeader alunoId user aluno w) by assumption.
  split; [reflexivity|].
  destruct (settle_generate_and_store_status env aluno (log (EvFindUnique alunoId) w))
    as [H|[H|H]]; rewrite H; discriminate.
Qed.

Lemma administrador_is_allowed_witness :
  access_denied Scenario.administrador Scenario.aluno_B = false /\
  status (fst (POST_aluno
                 (Scenario.env_with (Scenario.fails_then_succeeds Scenario.overloaded 0))
                 (Scenario.bearer "tok-administrador") "b1" Scenario.w0)) <> 403.
Proof.
  destruct (administrador_is_allowed
              (Scenario.env_with (Scenario.fails_then_succeeds Scenario.overloaded 0))
              (Scenario.bearer "tok-administrador") "b1" Scenario.administrador
              Scenario.aluno_B Scenario.w0)
    as (Hden & _ & Hstatus).
  - reflexivity.
  - discriminate.
  - reflexivity.
  - reflexivity.
  - reflexivity.
  - split; [exact Hden | exact Hstatus].
Defined.

(** A caller of another school whose access level is the string
    ["Administrator"] is denied by the authorization step and answered
    403. *)
Lemma administrator_of_other_school_is_forbidden :
  let env := Scenario.env_with (Scenario.fails_then_succeeds Scenario.overloaded 0) in
  let run := POST_aluno env (Scenario.bearer "tok-administrator") "b1" Scenario.w0 in
  authenticateToken env (Scenario.bearer "tok-administrator")
    = inr Scenario.administrator /\
  find (fun a => String.eqb (aluno_id a) "b1") (alunos Scenario.w0)
    = Some Scenario.aluno_B /\
  user_acesso Scenario.administrator = "Administrator" /\
  access_denied Scenario.administrator Scenario.aluno_B = true /\
  fst run = res_error 403 "Acesso negado: Aluno não pertence à sua escola." /\
  gen_calls (snd run) = 0%nat.
Proof.
  cbv zeta. repeat split; reflexivity.
Qed.

(** C10.  A caller whose verified token payload has no [escolaId], and whose
    access level is not ["Administrador"], is answered 403 for every existing
    target: [undefined] is not the school id of any stored target. *)
Theorem missing_school_id_is_forbidden
    (env : Env) (authHeader : option string) (alunoId : string) (user : User)
    (aluno : Aluno) (w : World) :
  authenticateToken env authHeader = inr user ->
  alunoId <> "" ->
  findUnique_fault env = None ->
  find (fun a => String.eqb (aluno_id a) alunoId) (alunos w) = Some aluno ->
  user_escolaId user = JUndefined ->
  user_acesso user <> "Administrador" ->
  strict_neq (user_escolaId user) (aluno_escolaId aluno) = true /\
  exists w',
    POST_aluno env authHeader alunoId w =
      (res_error 403 "Acesso negado: Aluno não pertence à sua escola.", w') /\
    insights w' = insights w /\
    gen_calls w' = gen_calls w.
Proof.
  intros Htoken Hid Hread Hfind Hundef Hacesso.
  assert (Hneq : strict_neq (user_escolaId user) (aluno_escolaId aluno) = true)
    by (rewrite Hundef; reflexivity).
  split; [exact Hneq|].
  rewrite (POST_denied env authHeader alunoId user aluno w); try assumption.
  - eexists. split; [reflexivity|]. split; reflexivity.
  - unfold access_denied. rewrite Hneq. apply String.eqb_neq in Hacesso.
    rewrite Hacesso. reflexivity.
Qed.

Lemma missing_school_id_is_forbidden_witness :
  status (fst (POST_aluno
                 (Scenario.env_with (Scenario.fails_then_succeeds Scenario.overloaded 0))
                 (Scenario.bearer "tok-sem-escola") "a1" Scenario.w0)) = 403.
Proof.
  destruct (missing_school_id_is_forbidden
              (Scenario.env_with (Scenario.fails_then_succeeds Scenario.overloaded 0))
              (Scenario.bearer "tok-sem-escola") "a1" Scenario.sem_escola
              Scenario.aluno_A Scenario.w0)
    as (_ & w' & Hrun & _).
  - reflexivity.
  - discriminate.
  - reflexivity.
  - reflexivity.
  - reflexivity.
  - discriminate.
  - rewrite Hrun. reflexivity.
Defined.

(** ** What a run stores and releases *)

Lemma disconnects_app (l1 l2 : list event) :
  disconnects (l1 ++ l2) = (disconnects l1 + disconnects l2)%nat.
Proof.
  unfold disconnects. rewrite filter_app, List.length_app. reflexivity.
Qed.

Lemma creations_app (l1 l2 : list event) :
  creations (l1 ++ l2) = (creations l1 + creations l2)%nat.
Proof.
  unfold creations. rewrite filter_app, List.length_app. reflexivity.
Qed.

(** From the prompt to the end of the [try] block a run keeps the targets,
    releases nothing, and stores either nothing or, when it returns, the one
    row it answers with, made for this target with the target's school. *)
Lemma generate_and_store_frame (env : Env) (aluno : Aluno) (w1 : World) :
  let outcome := generate_and_store env aluno w1 in
  alunos (snd outcome) = alunos w1 /\
  (exists evs, trace (snd outcome) = trace w1 ++ evs /\ disconnects evs = 0%nat) /\
  ((insights (snd outcome) = insights w1 /\ exists err, fst outcome = Throw err)
   \/
   exists novo,
     insights (snd outcome) = insights w1 ++ [novo] /\
     fst outcome = Return (res_json (CreatedBody "Insight gerado com sucesso!" novo)) /\
     insight_alunoId novo = aluno_id aluno /\
     insight_escolaId novo = aluno_escolaId aluno).
Proof.
  cbn zeta. unfold generate_and_store, bind, map_throw.
  pose proof (retryGenerateInsight_frame env
                (build_fullPrompt env (build_jsonInput aluno))
                default_maxRetries w1) as Hframe.
  cbn zeta in Hframe.
  destruct (retryGenerateInsight env _ default_maxRetries w1) as [[text|g] w2].
  - cbn [snd] in Hframe. destruct Hframe as (Ha & Hi & evs & Ht & _ & Hd).
    unfold prisma_insight_create. destruct (create_fault env) as [err|].
    + cbn. rewrite Ha, Hi, Ht. split; [reflexivity|]. split.
      * exists (evs ++ [EvCreate (mkInsightData (aluno_id aluno)
                                   (build_jsonInput aluno) text
                                   (aluno_escolaId aluno))]).
        rewrite app_assoc, disconnects_app, Hd. split; reflexivity.
      * left. split; [reflexivity|]. exists err. reflexivity.
    + cbn. rewrite Ha, Hi, Ht. split; [reflexivity|]. split.
      * exists (evs ++ [EvCreate (mkInsightData (aluno_id aluno)
                                   (build_jsonInput aluno) text
                                   (aluno_escolaId aluno))]).
        rewrite app_assoc, disconnects_app, Hd. split; reflexivity.
      * right. eexists. split; [reflexivity|]. repeat split.
  - cbn [snd] in Hframe. destruct Hframe as (Ha & Hi & evs & Ht & _ & Hd).
    cbn. split; [exact Ha|]. split.
    + exists evs. split; assumption.
    + left. split; [exact Hi|]. exists (thrown g). reflexivity.
Qed.

(** The [try] block of the generating route, as a whole. *)
Lemma post_try_frame (env : Env) (user : User) (alunoId : string) (w : World) :
  let outcome := post_try env user alunoId w in
  alunos (snd outcome) = alunos w /\
  (exists evs, trace (snd outcome) = trace w ++ evs /\ disconnects evs = 0%nat) /\
  (insights (snd outcome) = insights w
   \/
   exists novo aluno,
     insights (snd outcome) = insights w ++ [novo] /\
     find (fun a => String.eqb (aluno_id a) alunoId) (alunos w) = Some aluno /\
     aluno_id aluno = alunoId /\
     insight_alunoId novo = aluno_id aluno /\
     insight_escolaId novo = aluno_escolaId aluno).
Proof.
  cbn zeta. unfold post_try, bind, prisma_aluno_findUnique.
  destruct (findUnique_fault env) as [err|].
  { cbn. repeat split; [|left; reflexivity].
    exists [EvFindUnique alunoId]. split; reflexivity. }
  cbn [alunos log].
  destruct (find (fun a => String.eqb (aluno_id a) alunoId) (alunos w))
    as [aluno|] eqn:Hfind.
  2:{ cbn. repeat split; [|left; reflexivity].
      exists [EvFindUnique alunoId]. split; reflexivity. }
  destruct (access_denied user aluno).
  { cbn. repeat split; [|left; reflexivity].
    exists [EvFindUnique alunoId]. split; reflexivity. }
  destruct (generate_and_store_frame env aluno (log (EvFindUnique alunoId) w))
    as (Ha & (evs & Ht & Hd) & Hstore).
  split; [exact Ha|]. split.
  - exists (EvFindUnique alunoId :: evs). rewrite Ht. cbn [trace log].
    rewrite <- app_assoc. split; [reflexivity|]. exact Hd.
  - destruct Hstore as [[Hi _]|(novo & Hi & _ & Hid & Hschool)].
    + left. exact Hi.
    + right. exists novo, aluno. split; [exact Hi|]. split; [reflexivity|].
      apply find_some in Hfind. destruct Hfind as [_ Heq].
      apply String.eqb_eq in Heq. repeat split; assumption.
Qed.

(** C6.  The generating route stores at most one insight per request, and
    the insight it stores has the school id that its target has in storage
    when the row is written; so a store in which every insight has the
    school id of its target stays so.  The listing route stores nothing. *)
Theorem insight_has_school_of_its_target
    (env : Env) (authHeader : option string) (alunoId : string) (w : World) :
  let w' := snd (POST_aluno env authHeader alunoId w) in
  alunos w' = alunos w /\
  (insights w' = insights w
   \/
   exists novo aluno,
     insights w' = insights w ++ [novo] /\
     find (fun a => String.eqb (aluno_id a) (insight_alunoId novo)) (alunos w')
       = Some aluno /\
     insight_alunoId novo = alunoId /\
     insight_escolaId novo = aluno_escolaId aluno) /\
  (Forall (owned_by_target (alunos w)) (insights w) ->
   Forall (owned_by_target (alunos w')) (insights w')) /\
  insights (snd (GET_aluno env authHeader alunoId w)) = insights w /\
  alunos (snd (GET_aluno env authHeader alunoId w)) = alunos w.
Proof.
  cbn zeta.
  assert (Hpost :
    alunos (snd (POST_aluno env authHeader alunoId w)) = alunos w /\
    (insights (snd (POST_aluno env authHeader alunoId w)) = insights w
     \/
     exists novo aluno,
       insights (snd (POST_aluno env authHeader alunoId w)) = insights w ++ [novo] /\
       find (fun a => String.eqb (aluno_id a) alunoId) (alunos w) = Some aluno /\
       aluno_id aluno = alunoId /\
       insight_alunoId novo = aluno_id aluno /\
       insight_escolaId novo = aluno_escolaId aluno)).
  { unfold POST_aluno. destruct (authenticateToken env authHeader) as [r|user].
    { split; [reflexivity|left; reflexivity]. }
    unfold post_handler. destruct (String.eqb alunoId "").
    { split; [reflexivity|left; reflexivity]. }
    destruct (post_try_frame env user alunoId w) as (Ha & _ & Hstore).
    unfold try_catch_finally.
    destruct (post_try env user alunoId w) as [[r|err] w1];
      cbn [snd fst prisma_disconnect log alunos insights] in *;
      (split; [exact Ha | exact Hstore]). }
  destruct Hpost as (Ha & Hstore).
  split; [exact Ha|]. split; [|split].
  - destruct Hstore as [Hi|(novo & aluno & Hi & Hfind & Hid & Hnovo & Hschool)].
    + left. exact Hi.
    + right. exists novo, aluno. rewrite Ha, Hnovo, Hid.
      repeat split; assumption.
  - intros Hinv. rewrite Ha.
    destruct Hstore as [Hi|(novo & aluno & Hi & Hfind & Hid & Hnovo & Hschool)].
    + rewrite Hi. exact Hinv.
    + rewrite Hi. apply Forall_app. split; [exact Hinv|].
      constructor; [|constructor].
      exists aluno. rewrite Hnovo, Hid. split; assumption.
  - unfold GET_aluno. destruct (authenticateToken env authHeader) as [r|user].
    { split; reflexivity. }
    unfold get_handler. destruct (String.eqb alunoId "").
    { split; reflexivity. }
    unfold try_catch_finally, get_try, bind, prisma_insight_findMany.
    destruct (findMany_fault env); split; reflexivity.
Qed.

(** C7.  When the retry wrapper throws, whichever of its errors, in a run of
    the generating route, the route answers with an error, [create] is not
    called and the stored insights are those from before the request. *)
Theorem no_insight_when_generation_fails
    (env : Env) (authHeader : option string) (alunoId : string) (user : User)
    (aluno : Aluno) (w w2 : World) (g : GenError) :
  authenticateToken env authHeader = inr user ->
  alunoId <> "" ->
  findUnique_fault env = None ->
  find (fun a => String.eqb (aluno_id a) alunoId) (alunos w) = Some aluno ->
  access_denied user aluno = false ->
  retryGenerateInsight env (build_fullPrompt env (build_jsonInput aluno))
                       default_maxRetries (log (EvFindUnique alunoId) w)
    = (Throw g, w2) ->
  let run := POST_aluno env authHeader alunoId w in
  insights (snd run) = insights w /\
  (exists evs, trace (snd run) = trace w ++ evs /\ creations evs = 0%nat) /\
  fst run = post_catch (thrown g) /\
  (status (fst run) = 503 \/ status (fst run) = 500).
Proof.
  intros Htoken Hid Hread Hfind Hden Hretry. cbn zeta.
  rewrite (POST_allowed env authHeader alunoId user aluno w) by assumption.
  rewrite (generate_and_store_throws env aluno _ _ g Hretry).
  pose proof (retryGenerateInsight_frame env
                (build_fullPrompt env (build_jsonInput aluno))
                default_maxRetries (log (EvFindUnique alunoId) w)) as Hframe.
  cbn zeta in Hframe. rewrite Hretry in Hframe.
  destruct Hframe as (_ & Hi & evs & Ht & Hc & _).
  cbn [settle fst snd prisma_disconnect log insights trace] in *.
  split; [exact Hi|]. split; [|split; [reflexivity|]].
  - exists (EvFindUnique alunoId :: evs ++ [EvDisconnect]).
    rewrite Ht, <- !app_assoc. split; [reflexivity|].
    change (EvFindUnique alunoId :: evs ++ [EvDisconnect])
      with ([EvFindUnique alunoId] ++ evs ++ [EvDisconnect]).
    rewrite !creations_app, Hc. reflexivity.
  - unfold post_catch. destruct (includes _ (err_message (thrown g))); cbn; auto.
Qed.

Lemma no_insight_when_generation_fails_witness :
  insights (snd (POST_aluno
                   (Scenario.env_with (Scenario.always_fails Scenario.overloaded))
                   (Scenario.bearer "tok-professor") "a1" Scenario.w0))
    = insights Scenario.w0 /\
  status (fst (POST_aluno
                 (Scenario.env_with (Scenario.always_fails Scenario.overloaded))
                 (Scenario.bearer "tok-professor") "a1" Scenario.w0)) = 503.
Proof.
  destruct (no_insight_when_generation_fails
              (Scenario.env_with (Scenario.always_fails Scenario.overloaded))
              (Scenario.bearer "tok-professor") "a1" Scenario.professor
              Scenario.aluno_A Scenario.w0
              (snd (retryGenerateInsight
                      (Scenario.env_with (Scenario.always_fails Scenario.overloaded))
                      (build_fullPrompt
                         (Scenario.env_with (Scenario.always_fails Scenario.overloaded))
                         (build_jsonInput Scenario.aluno_A))
                      default_maxRetries (log (EvFindUnique "a1") Scenario.w0)))
              PersistentOverload)
    as (Hi & _ & Hresp & _).
  - reflexivity.
  - discriminate.
  - reflexivity.
  - reflexivity.
  - reflexivity.
  - reflexivity.
  - split; [exact Hi|]. rewrite Hresp. reflexivity.
Defined.

(** The exits before the [try] block leave the world as it is. *)
Lemma early_exit_leaves_world (env : Env) (authHeader : option string)
    (alunoId : string) (w : World) (response : Response) :
  authenticateToken env authHeader = inl response ->
  GET_aluno env authHeader alunoId w = (response, w) /\
  POST_aluno env authHeader alunoId w = (response, w).
Proof.
  intros Hauth. unfold GET_aluno, POST_aluno. rewrite Hauth. split; reflexivity.
Qed.

Lemma missing_id_leaves_world (env : Env) (user : User) (w : World) :
  get_handler env "" w = (res_error 400 "ID do aluno é obrigatório.", w) /\
  post_handler env user "" w = (res_error 400 "ID do aluno é obrigatório.", w).
Proof. split; reflexivity. Qed.

(** C8, as the code has it.  Once a request of either route has passed the
    token check and the check of the target id, and so has entered the [try]
    block that accesses storage, the storage connection is released on every
    exit, whatever the answer: the release is the last thing the run does and
    it happens exactly once. *)
Theorem storage_released_once_reached
    (env : Env) (authHeader : option string) (alunoId : string) (user : User)
    (w : World) :
  authenticateToken env authHeader = inr user ->
  alunoId <> "" ->
  (exists evs,
      trace (snd (GET_aluno env authHeader alunoId w)) = trace w ++ evs ++ [EvDisconnect]
      /\ disconnects evs = 0%nat) /\
  (exists evs,
      trace (snd (POST_aluno env authHeader alunoId w)) = trace w ++ evs ++ [EvDisconnect]
      /\ disconnects evs = 0%nat).
Proof.
  intros Htoken Hid. split.
  - unfold GET_aluno. rewrite Htoken. unfold get_handler.
    apply String.eqb_neq in Hid. rewrite Hid.
    unfold try_catch_finally, get_try, bind, prisma_insight_findMany.
    exists [EvFindMany alunoId].
    destruct (findMany_fault env); cbn; rewrite <- app_assoc; split; reflexivity.
  - unfold POST_aluno. rewrite Htoken.
    rewrite post_handler_settles by assumption.
    destruct (post_try_frame env user alunoId w) as (_ & (evs & Ht & Hd) & _).
    exists evs. unfold settle.
    destruct (post_try env user alunoId w) as [[r|err] w1];
      cbn [snd prisma_disconnect log trace] in *;
      rewrite Ht, <- app_assoc; split; [reflexivity | exact Hd | reflexivity | exact Hd].
Qed.

Lemma storage_released_once_reached_witness :
  exists evs,
    trace (snd (POST_aluno
                  (Scenario.env_with (Scenario.always_fails Scenario.bad_request))
                  (Scenario.bearer "tok-professor") "zz" Scenario.w0))
      = trace Scenario.w0 ++ evs ++ [EvDisconnect]
    /\ disconnects evs = 0%nat.
Proof.
  destruct (storage_released_once_reached
              (Scenario.env_with (Scenario.always_fails Scenario.bad_request))
              (Scenario.bearer "tok-professor") "zz" Scenario.professor Scenario.w0)
    as (_ & Hpost).
  - reflexivity.
  - discriminate.
  - exact Hpost.
Defined.

(** A request without a token is answered 401, and one with a token that
    does not verify 403, by the middleware; a handler reached with an empty
    target id answers 400.  These exits come before any access to storage
    and release nothing. *)
Lemma rejected_request_releases_nothing :
  let env := Scenario.env_with (Scenario.fails_then_succeeds Scenario.overloaded 0) in
  let listing := GET_aluno env None "a1" Scenario.w0 in
  let generating := POST_aluno env (Scenario.bearer "tok-forged") "a1" Scenario.w0 in
  let unnamed := POST_aluno env (Scenario.bearer "tok-professor") "" Scenario.w0 in
  status (fst listing) = 401 /\
  disconnects (trace (snd listing)) = 0%nat /\
  status (fst generating) = 403 /\
  disconnects (trace (snd generating)) = 0%nat /\
  status (fst unnamed) = 400 /\
  disconnects (trace (snd unnamed)) = 0%nat.
Proof.
  cbv zeta. repeat split; reflexivity.
Qed.

(** * Further properties of the routes *)

(** ** Reading the authorization header *)

Lemma split_without_separator (c : ascii) (s : string) :
  has_char c s = false -> split c s = [s].
Proof.
  induction s as [|a s IH]; simpl; intros Hno; [reflexivity|].
  apply orb_false_iff in Hno. destruct Hno as [Ha Hs].
  rewrite Ha, (IH Hs). reflexivity.
Qed.

Lemma split_at_first_separator (c : ascii) (a b : string) :
  has_char c a = false ->
  split c (a ++ String c b)%string = a :: split c b.
Proof.
  induction a as [|x a IH]; simpl; intros Hno.
  - rewrite Ascii.eqb_refl. reflexivity.
  - apply orb_false_iff in Hno. destruct Hno as [Hx Ha].
    rewrite Hx, (IH Ha). reflexivity.
Qed.

Lemma append_separator_not_empty (a b : string) (c : ascii) :
  String.eqb (a ++ String c b)%string "" = false.
Proof. destruct a; reflexivity. Qed.

(** X1.  The middleware takes as token the second piece of the header cut at
    single spaces, whatever the first piece is: a header made of a scheme
    without spaces, one space and a non-empty token without spaces gives that
    token back, also when more words follow, and the request is then decided
    by the verification of that token alone. *)
Theorem header_gives_token_back
    (env : Env) (scheme token rest : string) :
  has_char space scheme = false ->
  has_char space token = false ->
  token <> "" ->
  bearer_token (Some (scheme ++ " " ++ token)%string) = Some token /\
  bearer_token (Some (scheme ++ " " ++ token ++ " " ++ rest)%string) = Some token /\
  authenticateToken env (Some (scheme ++ " " ++ token)%string) =
    match jwt_verify env token (JWT_SECRET env) with
    | Some user => inr user
    | None => inl (res_error 403 "Token inválido.")
    end.
Proof.
  intros Hscheme Htoken Hne.
  apply String.eqb_neq in Hne.
  assert (H1 : bearer_token (Some (scheme ++ " " ++ token)%string) = Some token).
  { unfold bearer_token.
    change (scheme ++ " " ++ token)%string with (scheme ++ String space token)%string.
    rewrite append_separator_not_empty, split_at_first_separator by assumption.
    rewrite split_without_separator by assumption. cbn. rewrite Hne. reflexivity. }
  split; [exact H1|]. split.
  - unfold bearer_token.
    change (scheme ++ " " ++ token ++ " " ++ rest)%string
      with (scheme ++ String space (token ++ String space rest))%string.
    rewrite append_separator_not_empty, split_at_first_separator by assumption.
    rewrite split_at_first_separator by assumption. cbn. rewrite Hne. reflexivity.
  - unfold authenticateToken. rewrite H1. reflexivity.
Qed.

Lemma header_gives_token_back_witness :
  bearer_token (Some "Basic tok-professor and more") = Some "tok-professor" /\
  authenticateToken (Scenario.env_with Cases.succeeds) (Some "Basic tok-professor")
    = inr Scenario.professor.
Proof.
  destruct (header_gives_token_back (Scenario.env_with Cases.succeeds)
              "Basic" "tok-professor" "and more")
    as (_ & Hrest & Hauth).
  - reflexivity.
  - reflexivity.
  - discriminate.
  - split; [exact Hrest | exact Hauth].
Defined.

(** X2.  A request whose authorization header is absent, or has no space in
    it, is answered 401 by both routes, and nothing else happens: no token is
    verified against storage or the service, and the world is as before. *)
Theorem header_without_token_is_401
    (env : Env) (authHeader : option string) (alunoId : string) (w : World) :
  (authHeader = None \/
   exists h, authHeader = Some h /\ has_char space h = false) ->
  GET_aluno env authHeader alunoId w =
    (res_error 401 "Token de autenticação não fornecido.", w) /\
  POST_aluno env authHeader alunoId w =
    (res_error 401 "Token de autenticação não fornecido.", w).
Proof.
  intros Hheader.
  assert (Htoken : bearer_token authHeader = None).
  { destruct Hheader as [->|(h & -> & Hno)]; [reflexivity|].
    unfold bearer_token. rewrite split_without_separator by assumption.
    destruct (String.eqb h ""); reflexivity. }
  apply early_exit_leaves_world.
  unfold authenticateToken. rewrite Htoken. reflexivity.
Qed.

Lemma header_without_token_is_401_witness :
  POST_aluno (Scenario.env_with Cases.succeeds) (Some "tok-professor") "a1" Scenario.w0
  = (res_error 401 "Token de autenticação não fornecido.", Scenario.w0).
Proof.
  apply (header_without_token_is_401 (Scenario.env_with Cases.succeeds)
           (Some "tok-professor") "a1" Scenario.w0).
  right. exists "tok-professor". split; reflexivity.
Defined.

(** ** Listing *)

Lemma insert_desc_keeps_rows (i : Insight) (l : list Insight) :
  Permutation (insert_desc i l) (i :: l).
Proof.
  induction l as [|j l IH]; simpl; [apply Permutation_refl|].
  destruct (Z.leb (insight_dataGeracao j) (insight_dataGeracao i)).
  - apply Permutation_refl.
  - eapply Permutation_trans; [apply perm_skip, IH | apply perm_swap].
Qed.

Lemma sort_desc_keeps_rows (l : list Insight) : Permutation (sort_desc l) l.
Proof.
  induction l as [|i l IH]; simpl; [constructor|].
  eapply Permutation_trans; [apply insert_desc_keeps_rows|].
  apply perm_skip, IH.
Qed.

Lemma insert_desc_head (i j : Insight) (l : list Insight) :
  not_older j i -> HdRel not_older j l -> HdRel not_older j (insert_desc i l).
Proof.
  intros Hji Hhd. destruct l as [|k l]; simpl; [constructor; exact Hji|].
  destruct (Z.leb (insight_dataGeracao k) (insight_dataGeracao i)).
  - constructor. exact Hji.
  - constructor. inversion Hhd; assumption.
Qed.

Lemma insert_desc_sorted (i : Insight) (l : list Insight) :
  Sorted not_older l -> Sorted not_older (insert_desc i l).
Proof.
  induction l as [|j l IH]; simpl; intros Hs.
  - repeat constructor.
  - destruct (Z.leb (insight_dataGeracao j) (insight_dataGeracao i)) eqn:Hle.
    + constructor; [exact Hs|]. constructor.
      unfold not_older. apply Z.leb_le. exact Hle.
    + inversion Hs as [|? ? Htail Hhd]; subst.
      constructor; [apply IH; exact Htail|].
      apply insert_desc_head; [|exact Hhd].
      unfold not_older. apply Z.leb_gt in Hle. lia.
Qed.

Lemma sort_desc_sorted (l : list Insight) : Sorted not_older (sort_desc l).
Proof.
  induction l as [|i l IH]; simpl; [constructor|].
  apply insert_desc_sorted, IH.
Qed.

Lemma not_older_transitive (i j k : Insight) :
  not_older i j -> not_older j k -> not_older i k.
Proof. unfold not_older. lia. Qed.

(** What the listing route answers once it reaches storage. *)
Lemma GET_reaches_storage (env : Env) (authHeader : option string)
    (alunoId : string) (user : User) (w : World) :
  authenticateToken env authHeader = inr user ->
  alunoId <> "" ->
  GET_aluno env authHeader alunoId w =
  (match findMany_fault env with
   | Some _ => res_error 500 "Erro interno ao buscar insights."
   | None => res_json (InsightsBody (sort_desc (insights_of alunoId w)))
   end,
   prisma_disconnect (log (EvFindMany alunoId) w)).
Proof.
  intros Htoken Hid. unfold GET_aluno. rewrite Htoken. unfold get_handler.
  apply String.eqb_neq in Hid. rewrite Hid.
  unfold try_catch_finally, get_try, bind, prisma_insight_findMany.
  destruct (findMany_fault env); reflexivity.
Qed.

(** X3.  With a valid token, a target id and a working storage, the listing
    route answers 200 with exactly the stored insights of that target, each
    once, the most recent first; when the target has no stored insight, be
    it that no such target exists, the answer is 200 with the empty list. *)
Theorem listing_is_recent_first
    (env : Env) (authHeader : option string) (alunoId : string) (user : User)
    (w : World) :
  authenticateToken env authHeader = inr user ->
  alunoId <> "" ->
  findMany_fault env = None ->
  exists listed,
    fst (GET_aluno env authHeader alunoId w) = mkResponse 200 (InsightsBody listed) /\
    Permutation listed (insights_of alunoId w) /\
    (forall i, In i listed <-> In i (insights w) /\ insight_alunoId i = alunoId) /\
    StronglySorted not_older listed /\
    ((forall i, In i (insights w) -> insight_alunoId i <> alunoId) -> listed = []).
Proof.
  intros Htoken Hid Hfault.
  exists (sort_desc (insights_of alunoId w)).
  rewrite (GET_reaches_storage env authHeader alunoId user w Htoken Hid), Hfault.
  split; [reflexivity|].
  split; [apply sort_desc_keeps_rows|].
  split; [|split].
  - intros i. split.
    + intros Hin.
      apply (Permutation_in _ (sort_desc_keeps_rows _)) in Hin.
      unfold insights_of in Hin. apply filter_In in Hin.
      destruct Hin as [Hin Heq]. apply String.eqb_eq in Heq. split; assumption.
    + intros [Hin Heq].
      apply (Permutation_in _ (Permutation_sym (sort_desc_keeps_rows _))).
      unfold insights_of. apply filter_In. split; [exact Hin|].
      apply String.eqb_eq. exact Heq.
  - apply Sorted_StronglySorted; [|apply sort_desc_sorted].
    intros i j k. apply not_older_transitive.
  - intros Hnone.
    assert (Hempty : insights_of alunoId w = []).
    { unfold insights_of.
      induction (insights w) as [|i l IH]; [reflexivity|]. simpl.
      destruct (String.eqb (insight_alunoId i) alunoId) eqn:Heq.
      - apply String.eqb_eq in Heq. exfalso.
        apply (Hnone i); [left; reflexivity | exact Heq].
      - apply IH. intros j Hj. apply Hnone. right. exact Hj. }
    rewrite Hempty. reflexivity.
Qed.

Lemma listing_is_recent_first_witness :
  exists listed,
    fst (GET_aluno (Scenario.env_with Cases.succeeds)
                   (Scenario.bearer "tok-professor") "a1" Cases.w1)
      = mkResponse 200 (InsightsBody listed) /\
    Permutation listed [Cases.older; Cases.newer] /\
    StronglySorted not_older listed.
Proof.
  destruct (listing_is_recent_first (Scenario.env_with Cases.succeeds)
              (Scenario.bearer "tok-professor") "a1" Scenario.professor Cases.w1)
    as (listed & Hresp & Hperm & _ & Hsorted & _).
  - reflexivity.
  - discriminate.
  - reflexivity.
  - exists listed. split; [exact Hresp|]. split; [exact Hperm | exact Hsorted].
Defined.

Lemma authenticateToken_rejects (env : Env) (authHeader : option string)
    (response : Response) :
  authenticateToken env authHeader = inl response ->
  response = res_error 401 "Token de autenticação não fornecido."
  \/ response = res_error 403 "Token inválido.".
Proof.
  unfold authenticateToken. destruct (bearer_token authHeader) as [token|].
  - destruct (jwt_verify env token (JWT_SECRET env)); [discriminate|].
    intros H. injection H as <-. right. reflexivity.
  - intros H. injection H as <-. left. reflexivity.
Qed.

(** X4.  Listing does not change what is stored, so a second listing of the
    same target, with nothing in between, is answered as the first. *)
Theorem listing_twice_answers_the_same
    (env : Env) (authHeader : option string) (alunoId : string) (w : World) :
  insights (snd (GET_aluno env authHeader alunoId w)) = insights w /\
  alunos (snd (GET_aluno env authHeader alunoId w)) = alunos w /\
  gen_calls (snd (GET_aluno env authHeader alunoId w)) = gen_calls w /\
  fst (GET_aluno env authHeader alunoId (snd (GET_aluno env authHeader alunoId w)))
    = fst (GET_aluno env authHeader alunoId w).
Proof.
  destruct (authenticateToken env authHeader) as [r|user] eqn:Hauth.
  - destruct (early_exit_leaves_world env authHeader alunoId w r Hauth) as [Hget _].
    rewrite Hget. cbn [fst snd]. rewrite Hget. repeat split.
  - destruct (String.eqb alunoId "") eqn:Hid.
    + assert (Hget : forall w0, GET_aluno env authHeader alunoId w0 =
                                (res_error 400 "ID do aluno é obrigatório.", w0)).
      { intros w0. unfold GET_aluno, get_handler. rewrite Hauth, Hid. reflexivity. }
      rewrite !Hget. repeat split.
    + apply String.eqb_neq in Hid.
      rewrite !(GET_reaches_storage env authHeader alunoId user) by assumption.
      repeat split.
Qed.

(** X5.  The listing route does not look at who the caller is: a caller the
    generating route refuses with 403 for a target of another school is
    still given every stored insight of that target by the listing route. *)
Theorem refused_caller_may_still_list
    (env : Env) (authHeader : option string) (alunoId : string) (user : User)
    (aluno : Aluno) (w : World) :
  authenticateToken env authHeader = inr user ->
  alunoId <> "" ->
  findUnique_fault env = None ->
  findMany_fault env = None ->
  find (fun a => String.eqb (aluno_id a) alunoId) (alunos w) = Some aluno ->
  access_denied user aluno = true ->
  status (fst (POST_aluno env authHeader alunoId w)) = 403 /\
  exists listed,
    fst (GET_aluno env authHeader alunoId w) = mkResponse 200 (InsightsBody listed) /\
    forall i, In i (insights w) -> insight_alunoId i = alunoId -> In i listed.
Proof.
  intros Htoken Hid Hread Hlist Hfind Hden. split.
  - rewrite (POST_denied env authHeader alunoId user aluno w) by assumption.
    reflexivity.
  - exists (sort_desc (insights_of alunoId w)).
    rewrite (GET_reaches_storage env authHeader alunoId user w Htoken Hid), Hlist.
    split; [reflexivity|]. intros i Hin Heq.
    apply (Permutation_in _ (Permutation_sym (sort_desc_keeps_rows _))).
    unfold insights_of. apply filter_In. split; [exact Hin|].
    apply String.eqb_eq. exact Heq.
Qed.

Lemma refused_caller_may_still_list_witness :
  status (fst (POST_aluno (Scenario.env_with Cases.succeeds)
                          (Scenario.bearer "tok-professor") "b1" Cases.w1)) = 403 /\
  exists listed,
    fst (GET_aluno (Scenario.env_with Cases.succeeds)
                   (Scenario.bearer "tok-professor") "b1" Cases.w1)
      = mkResponse 200 (InsightsBody listed) /\
    In Cases.other listed.
Proof.
  destruct (refused_caller_may_still_list (Scenario.env_with Cases.succeeds)
              (Scenario.bearer "tok-professor") "b1" Scenario.professor
              Scenario.aluno_B Cases.w1)
    as (Hpost & listed & Hget & Hall).
  - reflexivity.
  - discriminate.
  - reflexivity.
  - reflexivity.
  - reflexivity.
  - reflexivity.
  - split; [exact Hpost|]. exists listed. split; [exact Hget|].
    apply Hall; [right; left; reflexivity | reflexivity].
Defined.

(** ** What the generating route answers and stores *)

(** Either the route answers 200 with the one insight it has stored for the
    asked target, or it answers something else and has stored nothing. *)
Lemma POST_stores_iff_200 (env : Env) (authHeader : option string)
    (alunoId : string) (w : World) :
  let run := POST_aluno env authHeader alunoId w in
  (exists novo,
      fst run = res_json (CreatedBody "Insight gerado com sucesso!" novo) /\
      insights (snd run) = insights w ++ [novo] /\
      insight_alunoId novo = alunoId /\
      alunoId <> "")
  \/
  (insights (snd run) = insights w /\
   exists code message, fst run = res_error code message /\
     (code = 400 \/ code = 401 \/ code = 403 \/ code = 404 \/ code = 500 \/ code = 503)).
Proof.
  cbn zeta. unfold POST_aluno.
  destruct (authenticateToken env authHeader) as [r|user] eqn:Hauth.
  { right. split; [reflexivity|].
    destruct (authenticateToken_rejects env authHeader r Hauth) as [->| ->];
      do 2 eexists; (split; [reflexivity|]); auto 8. }
  unfold post_handler. destruct (String.eqb alunoId "") eqn:Hid.
  { right. split; [reflexivity|]. do 2 eexists. split; [reflexivity|]. auto 8. }
  apply String.eqb_neq in Hid.
  unfold try_catch_finally, post_try, bind, prisma_aluno_findUnique.
  destruct (findUnique_fault env) as [err|].
  { right. split; [reflexivity|]. cbn [fst]. unfold post_catch.
    destruct (includes _ (err_message err)); do 2 eexists;
      (split; [reflexivity|]); auto 8. }
  cbn [alunos log].
  destruct (find (fun a => String.eqb (aluno_id a) alunoId) (alunos w))
    as [aluno|] eqn:Hfind.
  2:{ right. split; [reflexivity|]. do 2 eexists. split; [reflexivity|]. auto 8. }
  destruct (access_denied user aluno).
  { right. split; [reflexivity|]. do 2 eexists. split; [reflexivity|]. auto 8. }
  destruct (generate_and_store_frame env aluno (log (EvFindUnique alunoId) w))
    as (_ & _ & Hstore).
  destruct (generate_and_store env aluno (log (EvFindUnique alunoId) w))
    as [[r|err] w1]; cbn [fst snd] in Hstore.
  - destruct Hstore as [[_ [e He]]|(novo & Hi & Hr & Hnovo & _)]; [discriminate|].
    injection Hr as ->. left. exists novo. cbn [fst snd prisma_disconnect log insights].
    apply find_some in Hfind. destruct Hfind as [_ Heq].
    apply String.eqb_eq in Heq. rewrite Hnovo, Heq. repeat split; assumption.
  - destruct Hstore as [[Hi _]|(novo & _ & Hr & _)]; [|discriminate].
    right. split; [exact Hi|]. cbn [fst]. unfold post_catch.
    destruct (includes _ (err_message err)); do 2 eexists;
      (split; [reflexivity|]); auto 8.
Qed.

(** X6.  The generating route answers 200 exactly when it has stored an
    insight: then the body carries that one new row, made for the asked
    target; every other answer is an error with one of the codes 400, 401,
    403, 404, 500, 503, and leaves the stored insights as they were.  The
    listing route answers 200 with a list or an error with one of the codes
    400, 401, 403, 500. *)
Theorem response_contract
    (env : Env) (authHeader : option string) (alunoId : string) (w : World) :
  let generating := POST_aluno env authHeader alunoId w in
  let listing := GET_aluno env authHeader alunoId w in
  (status (fst generating) = 200 <->
   exists novo, insights (snd generating) = insights w ++ [novo]) /\
  (status (fst generating) = 200 ->
   exists novo,
     body (fst generating) = CreatedBody "Insight gerado com sucesso!" novo /\
     insights (snd generating) = insights w ++ [novo] /\
     insight_alunoId novo = alunoId) /\
  (status (fst generating) <> 200 ->
   insights (snd generating) = insights w /\
   (exists message, body (fst generating) = ErrorBody message) /\
   In (status (fst generating)) [400; 401; 403; 404; 500; 503]) /\
  ((exists listed, fst listing = mkResponse 200 (InsightsBody listed)) \/
   (exists message, body (fst listing) = ErrorBody message) /\
   In (status (fst listing)) [400; 401; 403; 500]).
Proof.
  cbn zeta.
  destruct (POST_stores_iff_200 env authHeader alunoId w)
    as [(novo & Hr & Hi & Hid & _)|(Hi & code & message & Hr & Hcode)].
  - rewrite Hr, Hi. cbn [fst status body res_json]. split; [|split; [|split]].
    + split; [intros _; exists novo; reflexivity | reflexivity].
    + intros _. exists novo. repeat split; assumption.
    + intros Hne. exfalso. apply Hne. reflexivity.
    + idtac. unfold GET_aluno.
      destruct (authenticateToken env authHeader) as [r|user] eqn:Hauth.
      { right. destruct (authenticateToken_rejects env authHeader r Hauth)
          as [->| ->]; cbn; split; eauto 8. }
      unfold get_handler. destruct (String.eqb alunoId "").
      { right. cbn. split; eauto 8. }
      unfold try_catch_finally, get_try, bind, prisma_insight_findMany.
      destruct (findMany_fault env); cbn; [right; split; eauto 8 | left; eauto].
  - rewrite Hr, Hi. cbn [fst status body res_error].
    assert (Hne : code <> 200) by (intuition lia).
    split; [|split; [|split]].
    + split; [intros H; contradiction|].
      intros [novo Happ]. exfalso.
      apply (f_equal (@List.length Insight)) in Happ.
      rewrite List.length_app in Happ. simpl in Happ. lia.
    + intros H. contradiction.
    + intros _. split; [reflexivity|]. split; [eexists; reflexivity|].
      simpl. intuition auto.
    + unfold GET_aluno.
      destruct (authenticateToken env authHeader) as [r|user] eqn:Hauth.
      { right. destruct (authenticateToken_rejects env authHeader r Hauth)
          as [->| ->]; cbn; split; eauto 8. }
      unfold get_handler. destruct (String.eqb alunoId "").
      { right. cbn. split; eauto 8. }
      unfold try_catch_finally, get_try, bind, prisma_insight_findMany.
      destruct (findMany_fault env); cbn; [right; split; eauto 8 | left; eauto].
Qed.

(** X7.  An insight the generating route has answered with is found by a
    listing of the same target that follows, by any caller with a valid
    token. *)
Theorem generated_insight_is_listed
    (env : Env) (authHeader authHeader' : option string) (alunoId : string)
    (user' : User) (w : World) :
  status (fst (POST_aluno env authHeader alunoId w)) = 200 ->
  authenticateToken env authHeader' = inr user' ->
  findMany_fault env = None ->
  exists novo listed,
    body (fst (POST_aluno env authHeader alunoId w))
      = CreatedBody "Insight gerado com sucesso!" novo /\
    fst (GET_aluno env authHeader' alunoId (snd (POST_aluno env authHeader alunoId w)))
      = mkResponse 200 (InsightsBody listed) /\
    In novo listed.
Proof.
  intros Hok Htoken Hlist.
  destruct (POST_stores_iff_200 env authHeader alunoId w)
    as [(novo & Hr & Hi & Hnovo & Hid)|(_ & code & message & Hr & Hcode)].
  - exists novo, (sort_desc (insights_of alunoId (snd (POST_aluno env authHeader alunoId w)))).
    rewrite Hr. split; [reflexivity|].
    rewrite (GET_reaches_storage env authHeader' alunoId user' _ Htoken Hid), Hlist.
    split; [reflexivity|].
    apply (Permutation_in _ (Permutation_sym (sort_desc_keeps_rows _))).
    unfold insights_of. rewrite Hi. apply filter_In. split.
    + apply in_or_app. right. left. reflexivity.
    + apply String.eqb_eq. exact Hnovo.
  - rewrite Hr in Hok. cbn in Hok. exfalso. intuition lia.
Qed.

Lemma generated_insight_is_listed_witness :
  exists novo listed,
    body (fst (POST_aluno (Scenario.env_with Cases.succeeds)
                          (Scenario.bearer "tok-professor") "a1" Cases.w1))
      = CreatedBody "Insight gerado com sucesso!" novo /\
    fst (GET_aluno (Scenario.env_with Cases.succeeds)
                   (Scenario.bearer "tok-sem-escola") "a1"
                   (snd (POST_aluno (Scenario.env_with Cases.succeeds)
                                    (Scenario.bearer "tok-professor") "a1" Cases.w1)))
      = mkResponse 200 (InsightsBody listed) /\
    In novo listed.
Proof.
  apply (generated_insight_is_listed (Scenario.env_with Cases.succeeds)
           (Scenario.bearer "tok-professor") (Scenario.bearer "tok-sem-escola")
           "a1" Scenario.sem_escola Cases.w1).
  - reflexivity.
  - reflexivity.
  - reflexivity.
Defined.

(** ** More on the retry wrapper *)

(** X8.  An error is retried exactly when its own [status] is the number
    503, or its own [status] is falsy and the [status] of its cause is the
    number 503: a truthy status other than 503 hides the cause, and the
    string ["503"] is not the signal. *)
Theorem overload_signal_characterised (error : JsError) :
  (is_overload error = true <->
   err_status error = JDef (SNum 503)
   \/ (truthy (err_status error) = false
       /\ err_cause error = Some (JDef (SNum 503)))) /\
  (truthy (err_status error) = true -> err_status error <> JDef (SNum 503) ->
   is_overload error = false) /\
  (forall s, err_status error = JDef (SStr s) -> err_cause error = None ->
   is_overload error = false).
Proof.
  unfold is_overload, error_status, js_or, cause_status.
  split; [|split].
  - rewrite strict_eq_true_iff.
    destruct (truthy (err_status error)) eqn:Htruthy.
    + split; [intros H; left; exact H|].
      intros [H|[H _]]; [exact H | discriminate].
    + split.
      * intros H. right. split; [reflexivity|].
        destruct (err_cause error) as [c|]; [rewrite H; reflexivity | discriminate].
      * intros [H|[_ H]].
        -- rewrite H in Htruthy. discriminate.
        -- rewrite H. reflexivity.
  - intros Htruthy Hne. rewrite Htruthy.
    apply not_true_iff_false. rewrite strict_eq_true_iff. exact Hne.
  - intros s Hs Hcause. rewrite Hs, Hcause.
    destruct (truthy (JDef (SStr s))); reflexivity.
Qed.

(** How many calls in a row, from the [n]-th on and at most [remaining], the
    service answers with the overload signal, and what comes next. *)
Lemma leading_overloads (env : Env) (p : string) :
  forall (remaining n : nat),
  exists j,
    (j <= remaining)%nat /\
    (forall i, (i < j)%nat -> overloaded_at env p (n + i)) /\
    (j = remaining
     \/ ((j < remaining)%nat /\
         ((exists text, generateContent env (n + j) p = Return text)
          \/ exists error, generateContent env (n + j) p = Throw error
                           /\ is_overload error = false))).
Proof.
  induction remaining as [|r IH]; intros n.
  - exists 0%nat. split; [lia|]. split; [intros i Hi; lia|]. left. reflexivity.
  - destruct (generateContent env n p) as [text|error] eqn:Hcall.
    + exists 0%nat. split; [lia|]. split; [intros i Hi; lia|].
      right. split; [lia|]. left. exists text. rewrite Nat.add_0_r. exact Hcall.
    + destruct (is_overload error) eqn:Hsig.
      * destruct (IH (S n)) as (j & Hj & Hov & Hnext).
        exists (S j). split; [lia|]. split.
        -- intros i Hi. destruct i as [|i].
           ++ rewrite Nat.add_0_r. exists error. split; assumption.
           ++ replace (n + S i)%nat with (S n + i)%nat by lia. apply Hov. lia.
        -- replace (n + S j)%nat with (S n + j)%nat by lia.
           destruct Hnext as [->|[Hlt Hnext]]; [left; reflexivity|].
           right. split; [lia | exact Hnext].
      * exists 0%nat. split; [lia|]. split; [intros i Hi; lia|].
        right. split; [lia|]. right. exists error. rewrite Nat.add_0_r.
        split; assumption.
Qed.

(** Every run of the wrapper with a key is [j] overloaded attempts, each
    followed by its wait, and then either nothing more, the attempts being
    used up, or one last call that decides the outcome. *)
Lemma retryGenerateInsight_shape (env : Env) (p : string) (maxRetries : nat)
    (w : World) :
  key_missing env = false ->
  exists j,
    (j <= maxRetries)%nat /\
    (forall i, (i < j)%nat -> overloaded_at env p (gen_calls w + i)) /\
    ((j = maxRetries /\
      retryGenerateInsight env p maxRetries w =
        (Throw PersistentOverload, after_overloads p 0 j w))
     \/
     ((j < maxRetries)%nat /\
      exists outcome,
        retryGenerateInsight env p maxRetries w =
          (outcome,
           mkWorld (alunos w) (insights w) (S (gen_calls w + j))
                   (clock w + backoff_total 0 j)
                   ((trace w ++ backoff_events p 0 j) ++ [EvGenerate p])) /\
        ((exists text, generateContent env (gen_calls w + j) p = Return text
                       /\ outcome = Return text)
         \/ exists error, generateContent env (gen_calls w + j) p = Throw error
                          /\ is_overload error = false
                          /\ outcome = Throw (NonRecoverable error)))).
Proof.
  intros Hkey.
  destruct (leading_overloads env p maxRetries (gen_calls w))
    as (j & Hj & Hov & Hnext).
  exists j. split; [exact Hj|]. split; [exact Hov|].
  unfold retryGenerateInsight. rewrite Hkey.
  destruct Hnext as [->|(Hlt & [(text & Hcall)|(error & Hcall & Hsig)])].
  - left. split; [reflexivity|]. apply retry_loop_exhausted. exact Hov.
  - right. split; [exact Hlt|]. exists (Return text). split.
    + apply retry_loop_succeeds; assumption.
    + left. exists text. split; [exact Hcall | reflexivity].
  - right. split; [exact Hlt|]. exists (Throw (NonRecoverable error)). split.
    + apply retry_loop_fails; assumption.
    + right. exists error. repeat split; assumption.
Qed.

Lemma prompts_app (l1 l2 : list event) :
  prompts (l1 ++ l2) = prompts l1 ++ prompts l2.
Proof.
  induction l1 as [|e l1 IH]; simpl; [reflexivity|].
  destruct e; simpl; rewrite IH; reflexivity.
Qed.

Lemma prompts_backoff (p : string) (k attempt : nat) :
  prompts (backoff_events p attempt k) = repeat p k.
Proof.
  revert attempt. induction k as [|k IH]; intros attempt; [reflexivity|].
  change (backoff_events p attempt (S k))
    with ([EvGenerate p; EvDelay (2 ^ Z.of_nat attempt * 1000)]
            ++ backoff_events p (S attempt) k).
  rewrite prompts_app, IH. reflexivity.
Qed.

Lemma backoff_total_monotone (j m : nat) :
  (j <= m)%nat ->
  0 <= backoff_total 0 j <= (2 ^ Z.of_nat m - 1) * 1000.
Proof.
  intros Hjm. rewrite backoff_total_closed. cbn [Nat.add].
  change (2 ^ Z.of_nat 0) with 1.
  assert (1 <= 2 ^ Z.of_nat j) by (apply Z.pow_le_mono_r with (b := 0); lia).
  assert (2 ^ Z.of_nat j <= 2 ^ Z.of_nat m) by (apply Z.pow_le_mono_r; lia).
  lia.
Qed.

(** X9.  What the wrapper gives is what the service gave: a returned text is
    the answer of the service to the last call made; a rethrown error is the
    error of the last call made and carries no overload signal; and the
    wrapper's own overload error is thrown only after [maxRetries] calls
    that were all answered with the overload signal.  With a key, the
    missing-key error is never thrown. *)
Theorem wrapper_outcome_is_the_service_outcome
    (env : Env) (fullPrompt : string) (maxRetries : nat) (w : World) :
  key_missing env = false ->
  let run := retryGenerateInsight env fullPrompt maxRetries w in
  (forall text, fst run = Return text ->
     (gen_calls w < gen_calls (snd run) <= gen_calls w + maxRetries)%nat /\
     generateContent env (gen_calls (snd run) - 1) fullPrompt = Return text) /\
  (forall error, fst run = Throw (NonRecoverable error) ->
     (gen_calls w < gen_calls (snd run) <= gen_calls w + maxRetries)%nat /\
     generateContent env (gen_calls (snd run) - 1) fullPrompt = Throw error /\
     is_overload error = false) /\
  (fst run = Throw PersistentOverload ->
     gen_calls (snd run) = (gen_calls w + maxRetries)%nat /\
     forall i, (i < maxRetries)%nat ->
               overloaded_at env fullPrompt (gen_calls w + i)) /\
  fst run <> Throw KeyMissing.
Proof.
  intros Hkey. cbn zeta.
  destruct (retryGenerateInsight_shape env fullPrompt maxRetries w Hkey)
    as (j & Hj & Hov & [(-> & Hrun)|(Hlt & outcome & Hrun & Hlast)]).
  - rewrite Hrun. cbn [fst snd after_overloads gen_calls].
    repeat split; try discriminate. exact Hov.
  - rewrite Hrun. cbn [fst snd gen_calls].
    replace (S (gen_calls w + j) - 1)%nat with (gen_calls w + j)%nat by lia.
    destruct Hlast as [(text & Hcall & ->)|(error & Hcall & Hsig & ->)].
    + split; [|split; [|split]]; try discriminate.
      intros text' Heq. injection Heq as <-. split; [lia | exact Hcall].
    + split; [|split; [|split]]; try discriminate.
      intros error' Heq. injection Heq as <-.
      split; [lia|]. split; assumption.
Qed.

Lemma wrapper_outcome_is_the_service_outcome_witness :
  generateContent
    (Scenario.env_with (Scenario.fails_then_succeeds Scenario.overloaded 2)) 2 "p"
  = Return "texto".
Proof.
  destruct (wrapper_outcome_is_the_service_outcome
              (Scenario.env_with (Scenario.fails_then_succeeds Scenario.overloaded 2))
              "p" 3 Scenario.w0)
    as (Hret & _).
  - reflexivity.
  - destruct (Hret "texto") as (_ & Hcall); [reflexivity|]. exact Hcall.
Defined.

(** X10.  Whatever the service answers, a run of the wrapper calls it at
    most [maxRetries] times, always with the prompt it was given, waits at
    most once per call, and waits no longer than
    [(2 ^ maxRetries - 1) * 1000] milliseconds in all; it touches neither
    the targets nor the insights. *)
Theorem wrapper_is_bounded
    (env : Env) (fullPrompt : string) (maxRetries : nat) (w : World) :
  let w' := snd (retryGenerateInsight env fullPrompt maxRetries w) in
  (gen_calls w <= gen_calls w' <= gen_calls w + maxRetries)%nat /\
  clock w <= clock w' <= clock w + (2 ^ Z.of_nat maxRetries - 1) * 1000 /\
  alunos w' = alunos w /\ insights w' = insights w /\
  exists evs,
    trace w' = trace w ++ evs /\
    generate_calls evs = (gen_calls w' - gen_calls w)%nat /\
    fold_right Z.add 0 (delays evs) = clock w' - clock w /\
    (List.length (delays evs) <= generate_calls evs)%nat /\
    Forall (fun prompt => prompt = fullPrompt) (prompts evs).
Proof.
  cbn zeta. destruct (key_missing env) eqn:Hkey.
  { unfold retryGenerateInsight. rewrite Hkey. cbn [snd].
    pose proof (backoff_total_monotone 0 maxRetries ltac:(lia)) as Hb.
    change (backoff_total 0 0) with 0 in Hb.
    repeat split; try lia.
    exists []. rewrite app_nil_r. cbn. repeat split; try lia. constructor. }
  destruct (retryGenerateInsight_shape env fullPrompt maxRetries w Hkey)
    as (j & Hj & _ & [(-> & Hrun)|(Hlt & outcome & Hrun & _)]);
    rewrite Hrun; cbn [snd after_overloads gen_calls clock alunos insights trace].
  - pose proof (backoff_total_monotone maxRetries maxRetries ltac:(lia)) as Hb.
    repeat split; try lia.
    exists (backoff_events fullPrompt 0 maxRetries).
    rewrite generate_calls_backoff, delays_backoff, prompts_backoff.
    rewrite List.length_map, List.length_seq.
    repeat split; try lia.
    + unfold backoff_total. lia.
    + apply Forall_forall. intros q Hq. apply repeat_spec in Hq. exact Hq.
  - pose proof (backoff_total_monotone j maxRetries ltac:(lia)) as Hb.
    repeat split; try lia.
    exists (backoff_events fullPrompt 0 j ++ [EvGenerate fullPrompt]).
    rewrite generate_calls_app, delays_app, prompts_app.
    rewrite generate_calls_backoff, delays_backoff, prompts_backoff.
    rewrite List.length_app, List.length_map, List.length_seq.
    cbn [delays prompts List.length generate_calls filter].
    rewrite app_nil_r, app_assoc.
    repeat split; try lia.
    + unfold backoff_total. lia.
    + apply Forall_app. split.
      * apply Forall_forall. intros q Hq. apply repeat_spec in Hq. exact Hq.
      * repeat constructor.
Qed.

(** X11.  A failure without the overload signal ends the retries wherever it
    comes: after [k] overloaded attempts and their waits, the error of call
    [k + 1] is rethrown as it is, with no wait after it and no further
    call. *)
Theorem failure_after_overloads_stops_retries
    (env : Env) (fullPrompt : string) (maxRetries k : nat) (error : JsError)
    (w : World) :
  key_missing env = false ->
  (k < maxRetries)%nat ->
  (forall i, (i < k)%nat -> overloaded_at env fullPrompt (gen_calls w + i)) ->
  generateContent env (gen_calls w + k) fullPrompt = Throw error ->
  is_overload error = false ->
  exists w',
    retryGenerateInsight env fullPrompt maxRetries w
      = (Throw (NonRecoverable error), w') /\
    thrown (NonRecoverable error) = error /\
    gen_calls w' = (gen_calls w + k + 1)%nat /\
    trace w' = trace w ++ backoff_events fullPrompt 0 k ++ [EvGenerate fullPrompt] /\
    delays (backoff_events fullPrompt 0 k ++ [EvGenerate fullPrompt])
      = map (fun attempt => 2 ^ Z.of_nat attempt * 1000) (seq 0 k) /\
    clock w' = clock w + (2 ^ Z.of_nat k - 1) * 1000.
Proof.
  intros Hkey Hk Hov Hcall Hsig.
  eexists. unfold retryGenerateInsight. rewrite Hkey.
  rewrite (retry_loop_fails env fullPrompt maxRetries k error w Hk Hov Hcall Hsig).
  split; [reflexivity|]. cbn [thrown gen_calls trace clock].
  split; [reflexivity|]. split; [lia|].
  split; [rewrite app_assoc; reflexivity|]. split.
  - rewrite delays_app, delays_backoff. cbn [delays]. apply app_nil_r.
  - rewrite backoff_total_closed. cbn [Nat.add].
    change (2 ^ Z.of_nat 0) with 1. reflexivity.
Qed.

Lemma failure_after_overloads_stops_retries_witness :
  exists w',
    retryGenerateInsight (Scenario.env_with Cases.overloaded_then_rejected)
                         "p" 3 Scenario.w0
      = (Throw (NonRecoverable Scenario.bad_request), w') /\
    gen_calls w' = 2%nat /\ clock w' = 1000.
Proof.
  destruct (failure_after_overloads_stops_retries
              (Scenario.env_with Cases.overloaded_then_rejected)
              "p" 3 1 Scenario.bad_request Scenario.w0)
    as (w' & Hrun & _ & Hcalls & _ & _ & Hclock).
  - reflexivity.
  - lia.
  - intros i Hi. destruct i as [|i]; [|lia].
    exists Scenario.overloaded. split; reflexivity.
  - reflexivity.
  - reflexivity.
  - exists w'. split; [exact Hrun|]. split; [exact Hcalls | exact Hclock].
Defined.

(** X12.  Without an API key the wrapper throws before any call to the
    service.  The generating route finds this out only after it has read the
    target and checked the caller: it then answers 500, having called no
    service and stored nothing. *)
Theorem missing_key_answers_500
    (env : Env) (authHeader : option string) (alunoId : string) (user : User)
    (aluno : Aluno) (w : World) :
  key_missing env = true ->
  authenticateToken env authHeader = inr user ->
  alunoId <> "" ->
  findUnique_fault env = None ->
  find (fun a => String.eqb (aluno_id a) alunoId) (alunos w) = Some aluno ->
  access_denied user aluno = false ->
  (forall prompt maxRetries w1,
      retryGenerateInsight env prompt maxRetries w1 = (Throw KeyMissing, w1)) /\
  exists w',
    POST_aluno env authHeader alunoId w =
      (res_error 500 "Erro interno ao gerar insight.", w') /\
    gen_calls w' = gen_calls w /\
    insights w' = insights w /\
    trace w' = trace w ++ [EvFindUnique alunoId; EvDisconnect].
Proof.
  intros Hkey Htoken Hid Hread Hfind Hden.
  assert (Hwrap : forall prompt maxRetries w1,
             retryGenerateInsight env prompt maxRetries w1 = (Throw KeyMissing, w1)).
  { intros prompt maxRetries w1. unfold retryGenerateInsight.
    rewrite Hkey. reflexivity. }
  split; [exact Hwrap|].
  rewrite (POST_allowed env authHeader alunoId user aluno w) by assumption.
  rewrite (generate_and_store_throws env aluno _ _ KeyMissing (Hwrap _ _ _)).
  eexists. split; [reflexivity|]. cbn. rewrite <- app_assoc. repeat split.
Qed.

Lemma missing_key_answers_500_witness :
  status (fst (POST_aluno Cases.env_without_key
                          (Scenario.bearer "tok-professor") "a1" Scenario.w0)) = 500 /\
  status (fst (POST_aluno Cases.env_without_key
                          (Scenario.bearer "tok-professor") "b1" Scenario.w0)) = 403.
Proof.
  destruct (missing_key_answers_500 Cases.env_without_key
              (Scenario.bearer "tok-professor") "a1" Scenario.professor
              Scenario.aluno_A Scenario.w0)
    as (_ & w' & Hrun & _).
  - reflexivity.
  - reflexivity.
  - discriminate.
  - reflexivity.
  - reflexivity.
  - reflexivity.
  - rewrite Hrun. split; reflexivity.
Defined.

(** ** Telling the failures apart *)

Lemma prefix_true_iff (sub s : string) :
  String.prefix sub s = true <-> exists post, s = (sub ++ post)%string.
Proof.
  revert s. induction sub as [|a sub IH]; intros s.
  - split; [intros _; exists s; reflexivity | destruct s; reflexivity].
  - destruct s as [|b s]; simpl.
    + split; [discriminate | intros [post H]; discriminate].
    + destruct (Ascii.ascii_dec a b) as [->|Hne].
      * rewrite IH. split; intros [post H]; exists post; congruence.
      * split; [discriminate|]. intros [post H]. congruence.
Qed.

Lemma includes_true_iff (sub s : string) :
  includes sub s = true <-> exists pre post, s = (pre ++ sub ++ post)%string.
Proof.
  induction s as [|a s IH].
  - cbn [includes]. destruct (String.prefix sub "") eqn:Hp.
    + split; [|reflexivity]. intros _.
      apply prefix_true_iff in Hp. destruct Hp as [post Hp].
      exists "", post. exact Hp.
    + split; [discriminate|]. intros (pre & post & H).
      destruct pre; [|discriminate]. simpl in H.
      assert (String.prefix sub "" = true)
        by (apply prefix_true_iff; exists post; exact H).
      congruence.
  - cbn [includes]. destruct (String.prefix sub (String a s)) eqn:Hp.
    + split; [|reflexivity]. intros _.
      apply prefix_true_iff in Hp. destruct Hp as [post Hp].
      exists "", post. exact Hp.
    + rewrite IH. split.
      * intros (pre & post & ->). exists (String a pre), post. reflexivity.
      * intros (pre & post & H). destruct pre as [|b pre].
        -- simpl in H.
           assert (String.prefix sub (String a s) = true)
             by (apply prefix_true_iff; exists post; exact H).
           congruence.
        -- simpl in H. injection H as _ ->. exists pre, post. reflexivity.
Qed.

(** X13.  An error caught by the generating route is answered 503 exactly
    when its message contains the words "Sobrecarga persistente" somewhere,
    and 500 otherwise; nothing else of the error is looked at, and the
    wrapper's own overload error is of the first kind. *)
Theorem caught_error_is_503_iff_marked (err : JsError) :
  (status (post_catch err) = 503 <->
   exists pre post,
     err_message err = (pre ++ "Sobrecarga persistente" ++ post)%string) /\
  (status (post_catch err) = 500 <->
   ~ exists pre post,
       err_message err = (pre ++ "Sobrecarga persistente" ++ post)%string) /\
  (forall status' cause',
     post_catch (mkError status' cause' (err_message err)) = post_catch err) /\
  status (post_catch (thrown PersistentOverload)) = 503 /\
  status (post_catch (thrown KeyMissing)) = 500.
Proof.
  rewrite <- includes_true_iff. unfold post_catch. cbn [err_message].
  destruct (includes "Sobrecarga persistente" (err_message err)); cbn.
  - split; [split; reflexivity|]. split.
    + split; [discriminate|]. intros H. exfalso. apply H. reflexivity.
    + repeat split.
  - split; [split; discriminate|]. split.
    + split; [intros _; discriminate | reflexivity].
    + repeat split.
Qed.

(** ** The generating route, end to end *)

(** X14.  For a target id that storage does not know, the generating route
    answers 404 after the one read, whoever the caller is and whether or not
    an API key is set: no call to the service, nothing stored. *)
Theorem unknown_target_is_404
    (env : Env) (authHeader : option string) (alunoId : string) (user : User)
    (w : World) :
  authenticateToken env authHeader = inr user ->
  alunoId <> "" ->
  findUnique_fault env = None ->
  (forall a, In a (alunos w) -> aluno_id a <> alunoId) ->
  exists w',
    POST_aluno env authHeader alunoId w =
      (res_error 404 "Aluno não encontrado.", w') /\
    gen_calls w' = gen_calls w /\
    insights w' = insights w /\
    trace w' = trace w ++ [EvFindUnique alunoId; EvDisconnect].
Proof.
  intros Htoken Hid Hread Hnone.
  assert (Hfind : find (fun a => String.eqb (aluno_id a) alunoId) (alunos w) = None).
  { induction (alunos w) as [|a l IH]; [reflexivity|]. simpl.
    destruct (String.eqb (aluno_id a) alunoId) eqn:Heq.
    - apply String.eqb_eq in Heq. exfalso.
      apply (Hnone a); [left; reflexivity | exact Heq].
    - apply IH. intros b Hb. apply Hnone. right. exact Hb. }
  unfold POST_aluno. rewrite Htoken.
  rewrite post_handler_settles by assumption.
  unfold post_try, bind, prisma_aluno_findUnique.
  rewrite Hread, Hfind. eexists. split; [reflexivity|].
  cbn. rewrite <- app_assoc. repeat split.
Qed.

Lemma unknown_target_is_404_witness :
  status (fst (POST_aluno (Scenario.env_with Cases.succeeds)
                          (Scenario.bearer "tok-administrador") "zz" Scenario.w0))
  = 404.
Proof.
  destruct (unknown_target_is_404 (Scenario.env_with Cases.succeeds)
              (Scenario.bearer "tok-administrador") "zz" Scenario.administrador
              Scenario.w0)
    as (w' & Hrun & _).
  - reflexivity.
  - discriminate.
  - reflexivity.
  - intros a [<-|[<-|[]]]; discriminate.
  - rewrite Hrun. reflexivity.
Defined.

(** After a returned text the route calls [create] with the target's id and
    school, the payload and the text. *)
Lemma generate_and_store_after_text (env : Env) (aluno : Aluno) (w1 w2 : World)
    (text : string) :
  retryGenerateInsight env (build_fullPrompt env (build_jsonInput aluno))
                       default_maxRetries w1 = (Return text, w2) ->
  generate_and_store env aluno w1 =
  match prisma_insight_create env
          (mkInsightData (aluno_id aluno) (build_jsonInput aluno) text
                         (aluno_escolaId aluno)) w2 with
  | (Return novo, w3) =>
      (Return (res_json (CreatedBody "Insight gerado com sucesso!" novo)), w3)
  | (Throw err, w3) => (Throw err, w3)
  end.
Proof.
  intros Hretry. unfold generate_and_store, bind, map_throw.
  rewrite Hretry. reflexivity.
Qed.

(** X15.  When the caller is let through, the service returns a text after
    [k] overloaded attempts, [k] less than 3, and storage accepts the row,
    the route answers 200 with the stored insight: it is the only new row,
    and it holds the target's id and school, the payload that was serialised
    into the prompt, and the text of the service.  The run is one read, the
    [k + 1] calls with their waits, one write, and the release. *)
Theorem generation_succeeds_end_to_end
    (env : Env) (authHeader : option string) (alunoId : string) (user : User)
    (aluno : Aluno) (w : World) (k : nat) (text : string) :
  key_missing env = false ->
  authenticateToken env authHeader = inr user ->
  alunoId <> "" ->
  findUnique_fault env = None ->
  find (fun a => String.eqb (aluno_id a) alunoId) (alunos w) = Some aluno ->
  access_denied user aluno = false ->
  create_fault env = None ->
  (k < 3)%nat ->
  (forall i, (i < k)%nat ->
     overloaded_at env (build_fullPrompt env (build_jsonInput aluno)) (gen_calls w + i)) ->
  generateContent env (gen_calls w + k) (build_fullPrompt env (build_jsonInput aluno))
    = Return text ->
  exists novo w',
    POST_aluno env authHeader alunoId w =
      (mkResponse 200 (CreatedBody "Insight gerado com sucesso!" novo), w') /\
    insights w' = insights w ++ [novo] /\
    insight_alunoId novo = alunoId /\
    insight_escolaId novo = aluno_escolaId aluno /\
    insight_jsonInput novo = build_jsonInput aluno /\
    insight_textoInsight novo = text /\
    gen_calls w' = (gen_calls w + k + 1)%nat /\
    trace w' =
      trace w ++ [EvFindUnique alunoId]
        ++ backoff_events (build_fullPrompt env (build_jsonInput aluno)) 0 k
        ++ [EvGenerate (build_fullPrompt env (build_jsonInput aluno));
            EvCreate (mkInsightData alunoId (build_jsonInput aluno) text
                                    (aluno_escolaId aluno));
            EvDisconnect].
Proof.
  intros Hkey Htoken Hid Hread Hfind Hden Hcreate Hk Hov Hcall.
  assert (Haluno : aluno_id aluno = alunoId).
  { apply find_some in Hfind. destruct Hfind as [_ Heq].
    apply String.eqb_eq. exact Heq. }
  rewrite (POST_allowed env authHeader alunoId user aluno w) by assumption.
  erewrite generate_and_store_after_text.
  2:{ unfold retryGenerateInsight. rewrite Hkey.
      apply (retry_loop_succeeds env _ default_maxRetries k text).
      - exact Hk.
      - exact Hov.
      - exact Hcall. }
  unfold prisma_insight_create. rewrite Hcreate.
  do 2 eexists. split; [reflexivity|].
  cbn. rewrite Haluno. repeat split; try lia.
  rewrite <- !app_assoc. reflexivity.
Qed.

Lemma generation_succeeds_end_to_end_witness :
  exists novo w',
    POST_aluno (Scenario.env_with (Scenario.fails_then_succeeds Scenario.overloaded 2))
               (Scenario.bearer "tok-professor") "a1" Cases.w1
      = (mkResponse 200 (CreatedBody "Insight gerado com sucesso!" novo), w') /\
    insights w' = insights Cases.w1 ++ [novo] /\
    insight_textoInsight novo = "texto" /\
    gen_calls w' = 3%nat.
Proof.
  destruct (generation_succeeds_end_to_end
              (Scenario.env_with (Scenario.fails_then_succeeds Scenario.overloaded 2))
              (Scenario.bearer "tok-professor") "a1" Scenario.professor
              Scenario.aluno_A Cases.w1 2 "texto")
    as (novo & w' & Hrun & Hi & _ & _ & _ & Htext & Hcalls & _).
  - reflexivity.
  - reflexivity.
  - discriminate.
  - reflexivity.
  - reflexivity.
  - reflexivity.
  - reflexivity.
  - lia.
  - intros i Hi. destruct i as [|[|i]];
      [exists Scenario.overloaded; split; reflexivity ..| lia].
  - reflexivity.
  - exists novo, w'. split; [exact Hrun|]. split; [exact Hi|].
    split; [exact Htext | exact Hcalls].
Defined.

Lemma creations_backoff (p : string) (k attempt : nat) :
  creations (backoff_events p attempt k) = 0%nat.
Proof.
  revert attempt. induction k as [|k IH]; intros attempt; [reflexivity|].
  change (backoff_events p attempt (S k))
    with ([EvGenerate p; EvDelay (2 ^ Z.of_nat attempt * 1000)]
            ++ backoff_events p (S attempt) k).
  rewrite creations_app, IH. reflexivity.
Qed.

(** X16.  When storage rejects the write after the service has returned a
    text, the route answers with an error, 500 unless the message of the
    storage error contains the words the route looks for; the service has
    been called, the text is in no stored row, and the write is not tried
    again. *)
Theorem rejected_write_loses_the_text
    (env : Env) (authHeader : option string) (alunoId : string) (user : User)
    (aluno : Aluno) (w : World) (k : nat) (text : string) (err : JsError) :
  key_missing env = false ->
  authenticateToken env authHeader = inr user ->
  alunoId <> "" ->
  findUnique_fault env = None ->
  find (fun a => String.eqb (aluno_id a) alunoId) (alunos w) = Some aluno ->
  access_denied user aluno = false ->
  create_fault env = Some err ->
  (k < 3)%nat ->
  (forall i, (i < k)%nat ->
     overloaded_at env (build_fullPrompt env (build_jsonInput aluno)) (gen_calls w + i)) ->
  generateContent env (gen_calls w + k) (build_fullPrompt env (build_jsonInput aluno))
    = Return text ->
  exists w' evs,
    POST_aluno env authHeader alunoId w = (post_catch err, w') /\
    (includes "Sobrecarga persistente" (err_message err) = false ->
     post_catch err = res_error 500 "Erro interno ao gerar insight.") /\
    insights w' = insights w /\
    gen_calls w' = (gen_calls w + k + 1)%nat /\
    trace w' = trace w ++ evs /\
    creations evs = 1%nat.
Proof.
  intros Hkey Htoken Hid Hread Hfind Hden Hcreate Hk Hov Hcall.
  rewrite (POST_allowed env authHeader alunoId user aluno w) by assumption.
  erewrite generate_and_store_after_text.
  2:{ unfold retryGenerateInsight. rewrite Hkey.
      apply (retry_loop_succeeds env _ default_maxRetries k text).
      - exact Hk.
      - exact Hov.
      - exact Hcall. }
  unfold prisma_insight_create. rewrite Hcreate.
  eexists.
  exists ([EvFindUnique alunoId]
            ++ backoff_events (build_fullPrompt env (build_jsonInput aluno)) 0 k
            ++ [EvGenerate (build_fullPrompt env (build_jsonInput aluno));
                EvCreate (mkInsightData (aluno_id aluno) (build_jsonInput aluno) text
                                        (aluno_escolaId aluno));
                EvDisconnect]).
  split; [reflexivity|]. split.
  - intros Hmsg. unfold post_catch. rewrite Hmsg. reflexivity.
  - cbn [settle snd prisma_disconnect log insights gen_calls trace].
    split; [reflexivity|]. split; [lia|]. split.
    + rewrite <- !app_assoc. reflexivity.
    + rewrite !creations_app, creations_backoff. reflexivity.
Qed.

Lemma rejected_write_loses_the_text_witness :
  exists w',
    POST_aluno (Cases.env_create_fails Cases.succeeds)
               (Scenario.bearer "tok-professor") "a1" Scenario.w0
      = (res_error 500 "Erro interno ao gerar insight.", w') /\
    insights w' = [] /\ gen_calls w' = 1%nat.
Proof.
  destruct (rejected_write_loses_the_text (Cases.env_create_fails Cases.succeeds)
              (Scenario.bearer "tok-professor") "a1" Scenario.professor
              Scenario.aluno_A Scenario.w0 0 "texto" Cases.storage_down)
    as (w' & evs & Hrun & Hcode & Hi & Hcalls & _).
  - reflexivity.
  - reflexivity.
  - discriminate.
  - reflexivity.
  - reflexivity.
  - reflexivity.
  - reflexivity.
  - lia.
  - intros i Hi. lia.
  - reflexivity.
  - exists w'. rewrite Hrun, (Hcode eq_refl). split; [reflexivity|].
    split; [exact Hi | exact Hcalls].
Defined.

(** The events of a run of the wrapper: calls with the prompt it was given
    and waits, at most [maxRetries] calls, none without a key, and at least
    one before it returns a text. *)
Lemma retry_events (env : Env) (p : string) (maxRetries : nat) (w : World) :
  let run := retryGenerateInsight env p maxRetries w in
  exists evs,
    trace (snd run) = trace w ++ evs /\
    gen_calls (snd run) = (gen_calls w + generate_calls evs)%nat /\
    (generate_calls evs <= maxRetries)%nat /\
    creations evs = 0%nat /\
    Forall (fun prompt => prompt = p) (prompts evs) /\
    (generate_calls evs <> 0%nat -> key_missing env = false) /\
    (forall text, fst run = Return text -> (1 <= generate_calls evs)%nat).
Proof.
  cbn zeta. destruct (key_missing env) eqn:Hkey.
  { unfold retryGenerateInsight. rewrite Hkey. exists []. cbn.
    rewrite app_nil_r. split; [reflexivity|]. split; [lia|]. split; [lia|].
    split; [reflexivity|]. split; [constructor|]. split.
    - intros H. exfalso. apply H. reflexivity.
    - intros text H. discriminate. }
  destruct (retryGenerateInsight_shape env p maxRetries w Hkey)
    as (j & Hj & _ & [(-> & Hrun)|(Hlt & outcome & Hrun & _)]); rewrite Hrun.
  - exists (backoff_events p 0 maxRetries).
    cbn [fst snd after_overloads trace gen_calls].
    rewrite generate_calls_backoff, creations_backoff, prompts_backoff.
    repeat split; try lia; try discriminate.
    apply Forall_forall. intros q Hq. apply repeat_spec in Hq. exact Hq.
  - exists (backoff_events p 0 j ++ [EvGenerate p]).
    cbn [fst snd trace gen_calls].
    rewrite generate_calls_app, creations_app, prompts_app.
    rewrite generate_calls_backoff, creations_backoff, prompts_backoff.
    cbn [generate_calls creations prompts filter List.length].
    rewrite app_assoc.
    repeat split; try lia.
    apply Forall_app. split; [|repeat constructor].
    apply Forall_forall. intros q Hq. apply repeat_spec in Hq. exact Hq.
Qed.

(** How often a run of the generating route calls the service and writes,
    and for whom. *)
Lemma POST_counts
    (env : Env) (authHeader : option string) (alunoId : string) (w : World) :
  let run := POST_aluno env authHeader alunoId w in
  exists evs,
    trace (snd run) = trace w ++ evs /\
    gen_calls (snd run) = (gen_calls w + generate_calls evs)%nat /\
    (generate_calls evs <= 3)%nat /\
    (creations evs <= 1)%nat /\
    (creations evs <= generate_calls evs)%nat /\
    (generate_calls evs <> 0%nat ->
     exists user aluno,
       authenticateToken env authHeader = inr user /\
       find (fun a => String.eqb (aluno_id a) alunoId) (alunos w) = Some aluno /\
       access_denied user aluno = false /\
       key_missing env = false /\
       Forall (fun prompt => prompt = build_fullPrompt env (build_jsonInput aluno))
              (prompts evs)).
Proof.
  cbn zeta. unfold POST_aluno.
  destruct (authenticateToken env authHeader) as [r|user] eqn:Hauth.
  { exists []. cbn. rewrite app_nil_r. repeat split; lia. }
  unfold post_handler. destruct (String.eqb alunoId "") eqn:Hid.
  { exists []. cbn. rewrite app_nil_r. repeat split; lia. }
  unfold try_catch_finally, post_try, bind, prisma_aluno_findUnique.
  destruct (findUnique_fault env) as [err|].
  { exists [EvFindUnique alunoId; EvDisconnect]. cbn.
    rewrite <- app_assoc. repeat split; lia. }
  cbn [alunos log].
  destruct (find (fun a => String.eqb (aluno_id a) alunoId) (alunos w))
    as [aluno|] eqn:Hfind.
  2:{ exists [EvFindUnique alunoId; EvDisconnect]. cbn.
      rewrite <- app_assoc. repeat split; lia. }
  destruct (access_denied user aluno) eqn:Hden.
  { exists [EvFindUnique alunoId; EvDisconnect]. cbn.
    rewrite <- app_assoc. repeat split; lia. }
  unfold generate_and_store, bind, map_throw.
  destruct (retry_events env (build_fullPrompt env (build_jsonInput aluno))
              default_maxRetries (log (EvFindUnique alunoId) w))
    as (evs & Ht & Hcalls & Hmax & Hnone & Hprompts & Hkey & Hreturn).
  destruct (retryGenerateInsight env _ default_maxRetries
              (log (EvFindUnique alunoId) w)) as [[text|g] w2];
    cbn [fst snd] in *.
  - specialize (Hreturn text eq_refl).
    exists ([EvFindUnique alunoId] ++ evs
              ++ [EvCreate (mkInsightData (aluno_id aluno) (build_jsonInput aluno)
                                          text (aluno_escolaId aluno));
                  EvDisconnect]).
    assert (Hw :
      trace (prisma_disconnect
               (log (EvCreate (mkInsightData (aluno_id aluno) (build_jsonInput aluno)
                                             text (aluno_escolaId aluno))) w2))
      = trace w ++ [EvFindUnique alunoId] ++ evs
          ++ [EvCreate (mkInsightData (aluno_id aluno) (build_jsonInput aluno)
                                      text (aluno_escolaId aluno));
              EvDisconnect]).
    { cbn [prisma_disconnect log trace]. rewrite Ht. cbn [log trace].
      rewrite <- !app_assoc. reflexivity. }
    rewrite !generate_calls_app, !creations_app, !prompts_app, Hnone.
    cbn [generate_calls creations prompts filter List.length].
    rewrite app_nil_r, !Nat.add_0_r. unfold default_maxRetries in Hmax.
    unfold prisma_insight_create.
    destruct (create_fault env); cbn [fst snd ret];
      (split; [exact Hw|]);
      (split; [cbn [prisma_disconnect log gen_calls]; rewrite Hcalls; cbn; lia|]);
      (repeat split; try lia);
      intros _; exists user, aluno;
      (repeat split; first [assumption | (apply Hkey; lia)]).
  - exists ([EvFindUnique alunoId] ++ evs ++ [EvDisconnect]).
    rewrite !generate_calls_app, !creations_app, !prompts_app, Hnone.
    cbn [generate_calls creations prompts filter List.length].
    rewrite app_nil_r, !Nat.add_0_r. unfold default_maxRetries in Hmax.
    cbn [fst snd prisma_disconnect log trace gen_calls].
    split; [rewrite Ht; cbn [log trace]; rewrite <- !app_assoc; reflexivity|].
    split; [rewrite Hcalls; cbn; lia|].
    repeat split; try lia.
    intros Hsome. exists user, aluno.
    repeat split; first [assumption | (apply Hkey; lia)].
Qed.

(** Where a write stands among events of which it is the only one. *)
Lemma create_position (l1 l2 pre post : list event) (d d' : InsightData) :
  creations l1 = 0%nat -> creations l2 = 0%nat ->
  l1 ++ EvCreate d :: l2 = pre ++ EvCreate d' :: post ->
  pre = l1 /\ d' = d /\ post = l2.
Proof.
  revert pre. induction l1 as [|a l1 IH]; intros pre H1 H2 Heq.
  - destruct pre as [|e pre]; cbn in Heq.
    + injection Heq as -> ->. repeat split.
    + injection Heq as <- ->.
      rewrite creations_app in H2. cbn in H2. lia.
  - destruct pre as [|e pre]; cbn in Heq.
    + injection Heq as -> _. cbn in H1. discriminate.
    + injection Heq as <- Heq.
      assert (H1' : creations l1 = 0%nat).
      { change (a :: l1) with ([a] ++ l1) in H1.
        rewrite creations_app in H1. lia. }
      destruct (IH pre H1' H2 Heq) as (-> & -> & ->). repeat split.
Qed.

(** The events of a run of the generating route hold no write, or are the
    read, then calls and waits with at least one call, then the write and the
    release. *)
Lemma POST_write_is_last (env : Env) (authHeader : option string)
    (alunoId : string) (w : World) (evs : list event) :
  trace (snd (POST_aluno env authHeader alunoId w)) = trace w ++ evs ->
  creations evs = 0%nat
  \/ exists calls data,
       evs = (EvFindUnique alunoId :: calls) ++ EvCreate data :: [EvDisconnect] /\
       creations calls = 0%nat /\
       (1 <= generate_calls calls)%nat.
Proof.
  unfold POST_aluno.
  destruct (authenticateToken env authHeader) as [r|user].
  { cbn [snd]. intros Ht. rewrite <- (app_nil_r (trace w)) in Ht at 1.
    apply app_inv_head in Ht. subst evs. left. reflexivity. }
  unfold post_handler. destruct (String.eqb alunoId "").
  { cbn [snd]. intros Ht. rewrite <- (app_nil_r (trace w)) in Ht at 1.
    apply app_inv_head in Ht. subst evs. left. reflexivity. }
  unfold try_catch_finally, post_try, bind, prisma_aluno_findUnique.
  destruct (findUnique_fault env) as [err|].
  { cbn. rewrite <- app_assoc. intros Ht.
    apply app_inv_head in Ht. subst evs. left. reflexivity. }
  cbn [alunos log].
  destruct (find (fun a => String.eqb (aluno_id a) alunoId) (alunos w))
    as [aluno|].
  2:{ cbn. rewrite <- app_assoc. intros Ht.
      apply app_inv_head in Ht. subst evs. left. reflexivity. }
  destruct (access_denied user aluno).
  { cbn. rewrite <- app_assoc. intros Ht.
    apply app_inv_head in Ht. subst evs. left. reflexivity. }
  unfold generate_and_store, bind, map_throw.
  destruct (retry_events env (build_fullPrompt env (build_jsonInput aluno))
              default_maxRetries (log (EvFindUnique alunoId) w))
    as (calls & Hcalls & _ & _ & Hnone & _ & _ & Hreturn).
  destruct (retryGenerateInsight env _ default_maxRetries
              (log (EvFindUnique alunoId) w)) as [[text|g] w2];
    cbn [fst snd] in *.
  - specialize (Hreturn text eq_refl).
    assert (Hw : forall w3,
               trace w3 = trace w2 ++
                 [EvCreate (mkInsightData (aluno_id aluno) (build_jsonInput aluno)
                                          text (aluno_escolaId aluno))] ->
               trace (prisma_disconnect w3) = trace w ++ evs ->
               evs = (EvFindUnique alunoId :: calls)
                       ++ EvCreate (mkInsightData (aluno_id aluno)
                                      (build_jsonInput aluno) text
                                      (aluno_escolaId aluno))
                       :: [EvDisconnect]).
    { intros w3 H3 Ht. cbn [prisma_disconnect log trace] in Ht.
      rewrite H3, Hcalls in Ht. cbn [log trace] in Ht.
      rewrite <- !app_assoc in Ht. apply app_inv_head in Ht.
      subst evs. reflexivity. }
    unfold prisma_insight_create.
    destruct (create_fault env); cbn [fst snd ret]; intros Ht; right;
      exists calls; eexists; (split; [|split; [exact Hnone | exact Hreturn]]);
      (eapply Hw; [|exact Ht]); reflexivity.
  - cbn [prisma_disconnect log trace]. rewrite Hcalls. cbn [log trace].
    rewrite <- !app_assoc. intros Ht. apply app_inv_head in Ht. subst evs.
    left. change (creations ([EvFindUnique alunoId] ++ calls ++ [EvDisconnect]) = 0%nat).
    rewrite !creations_app, Hnone. reflexivity.
Qed.

(** X17.  The generating route calls the generation service only for a
    caller it has let through to an existing target, and only with a key; it
    calls it at most 3 times in a request, each time with the prompt built
    from that target; and it writes at most once, never without a call
    before: wherever a write stands in the run, the read of the target and
    at least one call to the service come before it, and after it comes the
    release alone, no further call. *)
Theorem service_called_only_for_allowed_caller
    (env : Env) (authHeader : option string) (alunoId : string) (w : World) :
  let run := POST_aluno env authHeader alunoId w in
  exists evs,
    trace (snd run) = trace w ++ evs /\
    gen_calls (snd run) = (gen_calls w + generate_calls evs)%nat /\
    (generate_calls evs <= 3)%nat /\
    (creations evs <= 1)%nat /\
    (creations evs <= generate_calls evs)%nat /\
    (generate_calls evs <> 0%nat ->
     exists user aluno,
       authenticateToken env authHeader = inr user /\
       find (fun a => String.eqb (aluno_id a) alunoId) (alunos w) = Some aluno /\
       access_denied user aluno = false /\
       key_missing env = false /\
       Forall (fun prompt => prompt = build_fullPrompt env (build_jsonInput aluno))
              (prompts evs)) /\
    (forall pre data post,
       evs = pre ++ EvCreate data :: post ->
       In (EvFindUnique alunoId) pre /\
       (1 <= generate_calls pre)%nat /\
       generate_calls pre = generate_calls evs /\
       creations pre = 0%nat /\
       post = [EvDisconnect]).
Proof.
  cbn zeta.
  destruct (POST_counts env authHeader alunoId w)
    as (evs & Ht & Hcalls & Hmax & Hone & Hle & Hwho).
  exists evs. repeat (split; [assumption|]).
  intros pre data post Heq.
  destruct (POST_write_is_last env authHeader alunoId w evs Ht)
    as [Hzero|(calls & d & Hevs & Hnone & Hsome)].
  - exfalso. rewrite Heq, creations_app in Hzero.
    change (EvCreate data :: post) with ([EvCreate data] ++ post) in Hzero.
    rewrite creations_app in Hzero. cbn in Hzero. lia.
  - assert (Hleft : creations (EvFindUnique alunoId :: calls) = 0%nat).
    { change (EvFindUnique alunoId :: calls) with ([EvFindUnique alunoId] ++ calls).
      rewrite creations_app, Hnone. reflexivity. }
    rewrite Hevs in Heq.
    destruct (create_position (EvFindUnique alunoId :: calls) [EvDisconnect]
                pre post d data Hleft eq_refl Heq)
      as (-> & _ & ->).
    split; [left; reflexivity|].
    change (EvFindUnique alunoId :: calls) with ([EvFindUnique alunoId] ++ calls).
    rewrite Hevs.
    change ((EvFindUnique alunoId :: calls) ++ [EvCreate d; EvDisconnect])
      with ([EvFindUnique alunoId] ++ calls ++ [EvCreate d; EvDisconnect]).
    rewrite !generate_calls_app. cbn [generate_calls filter List.length].
    repeat split; try lia.
    rewrite creations_app, Hnone. reflexivity.
Qed.

(** X18.  For a caller with a valid token and an existing target, the
    generating route answers 403 exactly when the caller's school id is not
    the target's, compared without conversion, and the caller's access level
    is not ["Administrador"].  A caller of the target's school is never
    refused, whatever the access level; a numeric school id in the token
    does not match a textual one in storage. *)
Theorem forbidden_iff_other_school
    (env : Env) (authHeader : option string) (alunoId : string) (user : User)
    (aluno : Aluno) (w : World) :
  authenticateToken env authHeader = inr user ->
  alunoId <> "" ->
  findUnique_fault env = None ->
  find (fun a => String.eqb (aluno_id a) alunoId) (alunos w) = Some aluno ->
  (status (fst (POST_aluno env authHeader alunoId w)) = 403 <->
   user_escolaId user <> JDef (aluno_escolaId aluno)
   /\ user_acesso user <> "Administrador") /\
  (user_escolaId user = JDef (aluno_escolaId aluno) ->
   status (fst (POST_aluno env authHeader alunoId w)) <> 403) /\
  (forall n s,
     user_escolaId user = JDef (SNum n) -> aluno_escolaId aluno = SStr s ->
     user_acesso user <> "Administrador" ->
     status (fst (POST_aluno env authHeader alunoId w)) = 403).
Proof.
  intros Htoken Hid Hread Hfind.
  assert (Hiff : status (fst (POST_aluno env authHeader alunoId w)) = 403 <->
                 access_denied user aluno = true).
  { destruct (access_denied user aluno) eqn:Hden.
    - rewrite (POST_denied env authHeader alunoId user aluno w) by assumption.
      split; reflexivity.
    - rewrite (POST_allowed env authHeader alunoId user aluno w) by assumption.
      split; [|discriminate]. intros H403.
      destruct (settle_generate_and_store_status env aluno
                  (log (EvFindUnique alunoId) w)) as [H|[H|H]];
        rewrite H in H403; discriminate. }
  split; [|split].
  - rewrite Hiff. apply access_denied_true_iff.
  - intros Hsame H403. apply Hiff, access_denied_true_iff in H403.
    destruct H403 as [Hother _]. contradiction.
  - intros n s Hn Hs Hacesso. apply Hiff, access_denied_true_iff.
    split; [|exact Hacesso]. rewrite Hn, Hs. discriminate.
Qed.

Lemma forbidden_iff_other_school_witness :
  status (fst (POST_aluno (Scenario.env_with Cases.succeeds)
                          (Scenario.bearer "tok-professor") "a1" Scenario.w0)) <> 403.
Proof.
  destruct (forbidden_iff_other_school (Scenario.env_with Cases.succeeds)
              (Scenario.bearer "tok-professor") "a1" Scenario.professor
              Scenario.aluno_A Scenario.w0)
    as (_ & Hsame & _).
  - reflexivity.
  - discriminate.
  - reflexivity.
  - reflexivity.
  - apply Hsame. reflexivity.
Defined.
